(** * helper_edit.py: projection of an electricity-generation mix

    A shallow embedding of [helper_edit.py] and the properties its
    specification states about it.

    Number models.  The program computes with numpy [float64] arrays.
    Two embeddings of it are given.

    In the exact model a float is a rational ([Q]): every operation is
    the exact operation, and there is no rounding, no NaN and no
    infinity.  Two rationals denote the same number when they are related
    by [Qeq] (written [==]), and Leibniz equality [=] is used where the
    program copies a value without computing on it.  This model carries
    the properties of the control flow and of the formulas as they are
    written: which row is written when, what raises, which arguments are
    read.

    In the float64 model ([Module Float64]) a float is Rocq's primitive
    [float], the IEEE 754 binary64 format numpy computes in, with its
    rounding, its two zeros, its infinities and NaN.  This model decides
    the statements whose truth depends on the value a computation
    returns: a sum that should be exactly 100, a row that should equal an
    argument, a coefficient that should be 0 for every argument.

    Arrays.  A numpy array of six floats is the record [vec6]; the matrix
    [aPercentSources] is a [list vec6] written by row index with stdpp's
    list insert; a one-dimensional array is a list of numbers.  The
    coefficient array that [get_aReliability] writes into is an object
    shared between calls: it lives in a [heap] and is passed by
    reference.  An index out of range raises [IndexError], as in
    Python. *)

From Stdlib Require Import QArith Lqa Lia List Floats.
From stdpp Require Import list gmap.
Open Scope Q_scope.
Set Warnings "-inexact-float".

(* ================================================================== *)
(** ** Six-channel vectors *)
(* ================================================================== *)

(** Array format of the program:
    [<Coal>, <Natural Gas>, <Solar>, <Wind>, <Nuclear>, <Winter NG>],
    that is indices 0, 1, 2, 3, 4, 5. *)
Inductive source : Set :=
| Coal | NaturalGas | Solar | Wind | Nuclear | WinterNG.

#[global] Instance source_eq_dec : EqDecision source.
Proof. solve_decision. Defined.

Definition index_of (c : source) : nat :=
  match c with
  | Coal => 0 | NaturalGas => 1 | Solar => 2
  | Wind => 3 | Nuclear => 4 | WinterNG => 5
  end%nat.

Record vec6 : Set := Vec6 { x0 : Q; x1 : Q; x2 : Q; x3 : Q; x4 : Q; x5 : Q }.

(** [v[c]] *)
Definition get (c : source) (v : vec6) : Q :=
  match c with
  | Coal => x0 v | NaturalGas => x1 v | Solar => x2 v
  | Wind => x3 v | Nuclear => x4 v | WinterNG => x5 v
  end.

(** [v[c] = x] *)
Definition set (c : source) (x : Q) (v : vec6) : vec6 :=
  match c with
  | Coal       => Vec6 x (x1 v) (x2 v) (x3 v) (x4 v) (x5 v)
  | NaturalGas => Vec6 (x0 v) x (x2 v) (x3 v) (x4 v) (x5 v)
  | Solar      => Vec6 (x0 v) (x1 v) x (x3 v) (x4 v) (x5 v)
  | Wind       => Vec6 (x0 v) (x1 v) (x2 v) x (x4 v) (x5 v)
  | Nuclear    => Vec6 (x0 v) (x1 v) (x2 v) (x3 v) x (x5 v)
  | WinterNG   => Vec6 (x0 v) (x1 v) (x2 v) (x3 v) (x4 v) x
  end.

(** [np.zeros(6)] *)
Definition vzero : vec6 := Vec6 0 0 0 0 0 0.

(** [v * k], a vector times a scalar *)
Definition vscale (v : vec6) (k : Q) : vec6 :=
  Vec6 (x0 v * k) (x1 v * k) (x2 v * k) (x3 v * k) (x4 v * k) (x5 v * k).

(** [a + b], elementwise *)
Definition vadd (a b : vec6) : vec6 :=
  Vec6 (x0 a + x0 b) (x1 a + x1 b) (x2 a + x2 b)
       (x3 a + x3 b) (x4 a + x4 b) (x5 a + x5 b).

(** [np.sum(v)] *)
Definition vsum (v : vec6) : Q := x0 v + x1 v + x2 v + x3 v + x4 v + x5 v.

(** [np.dot(a, b)] *)
Definition dot (a b : vec6) : Q :=
  x0 a * x0 b + x1 a * x1 b + x2 a * x2 b
  + x3 a * x3 b + x4 a * x4 b + x5 a * x5 b.

(** The two vectors hold the same six numbers. *)
Definition veq (a b : vec6) : Prop :=
  x0 a == x0 b /\ x1 a == x1 b /\ x2 a == x2 b /\
  x3 a == x3 b /\ x4 a == x4 b /\ x5 a == x5 b.

(** Every channel is nonnegative. *)
Definition nonneg (v : vec6) : Prop :=
  0 <= x0 v /\ 0 <= x1 v /\ 0 <= x2 v /\ 0 <= x3 v /\ 0 <= x4 v /\ 0 <= x5 v.

(** The five channels the program clamps; NaturalGas is the slack. *)
Definition clamped (c : source) : Prop := c <> NaturalGas.

(** [x < y] and [x >= y] as the program tests them. *)
Definition Qltb (x y : Q) : bool := negb (Qle_bool y x).
Definition Qgeb (x y : Q) : bool := Qle_bool y x.

(** [np.sum(l)] *)
Definition Qsum (l : list Q) : Q := fold_left Qplus l 0.

(** [len(l)] as a number *)
Definition len (l : list Q) : Q := inject_Z (Z.of_nat (length l)).

(* ================================================================== *)
(** ** Module-level constants *)
(* ================================================================== *)

Module Defaults.
Definition initial_percentages : vec6 := Vec6 19.3 53.6 0.9 17.5 8.7 0.
Definition derivative_sources : vec6 := Vec6 (-1.89) 0 0.0976 1.29 (-0.116) 0.
Definition sec_derivative_sources : vec6 := vzero.
Definition aRelScores : vec6 :=
  Vec6 (-9192.435233) (-5811.753731) 26687.77778
       (-5368.914286) (-8413.448276) 0.
Definition perc_effective : Q := 83.5.
Definition dirE : Q := 6.92e6.
End Defaults.

(* ================================================================== *)
(** ** get_aEnergy *)
(* ================================================================== *)

(** [aEnergy = dirE*aYear - 1.35*10**10] *)
Definition get_aEnergy (aYear : list Q) (dirE : Q) : list Q :=
  map (fun y => dirE * y - 1.35e10) aYear.

(* ================================================================== *)
(** ** Loops *)
(* ================================================================== *)

(** [for i in range(len(aYear)): s = body(i, aYear[i], s)], started at
    index [i] with [ts] the samples from index [i] on. *)
Section ForEach.
Context {St : Type}.
Variable body : nat -> Q -> St -> St.

Fixpoint for_each (i : nat) (ts : list Q) (s : St) : St :=
  match ts with
  | [] => s
  | t :: ts' => for_each (S i) ts' (body i t s)
  end.
End ForEach.

(* ================================================================== *)
(** ** get_aPercentSources *)
(* ================================================================== *)

Section SourceMix.
Variables initial_percentages derivative_sources sec_derivative_sources : vec6.

(** [P = sec_derivative_sources*(0.5*(aYear[i]-2021)**2)
        + derivative_sources*(aYear[i]-2021) + initial_percentages] *)
Definition candidate (t : Q) : vec6 :=
  vadd (vadd (vscale sec_derivative_sources (0.5 * (t - 2021) ^ 2))
             (vscale derivative_sources (t - 2021)))
       initial_percentages.

(** [if P[c] < 0: P[c] = 0] *)
Definition clamp_negative (c : source) (P : vec6) : vec6 :=
  if Qltb (get c P) 0 then set c 0 P else P.

(** The five tests of the loop body, in the order of the program:
    indices 0, 2, 3, 4, 5. *)
Definition clamp (P : vec6) : vec6 :=
  clamp_negative WinterNG
    (clamp_negative Nuclear
       (clamp_negative Wind
          (clamp_negative Solar
             (clamp_negative Coal P)))).

(** [NG = 100-(P[0]+P[2]+P[3]+P[4]+P[5])] *)
Definition slack (P : vec6) : Q :=
  100 - (get Coal P + get Solar P + get Wind P + get Nuclear P + get WinterNG P).

(** One iteration of the loop at index [i] with [t = aYear[i]], on the
    matrix [M = aPercentSources].  [P] is a fresh array at every
    iteration (the assignment of the sum rebinds the name), so the
    clamping writes never reach [initial_percentages].  The read of row
    [i-1] is in range whenever the loop reaches it
    ([loop_body_reads_in_range]). *)
Definition loop_body (i : nat) (t : Q) (M : list vec6) : list vec6 :=
  let P := clamp (candidate t) in
  let NG := slack P in
  if Qgeb NG 0 then
    (* aPercentSources[i,:] = P ; aPercentSources[i,1] = NG *)
    alter (set NaturalGas NG) i (<[i := P]> M)
  else if (0 <? i)%nat then
    (* aPercentSources[i,:] = aPercentSources[i-1,:] *)
    match M !! (i - 1)%nat with
    | Some prev => <[i := prev]> M
    | None => M
    end
  else
    (* aPercentSources[i,:] = initial_percentages *)
    <[i := initial_percentages]> M.

Definition get_aPercentSources (aYear : list Q) : list vec6 :=
  for_each loop_body 0 aYear (replicate (length aYear) vzero).

(** *** The loop as a fold carrying the previous row *)

(** The slack computed at sample [t] is nonnegative. *)
Definition feasible (t : Q) : bool := Qgeb (slack (clamp (candidate t))) 0.

(** The row installed at a feasible sample. *)
Definition accepted (t : Q) : vec6 :=
  set NaturalGas (slack (clamp (candidate t))) (clamp (candidate t)).

Definition next_row (prev : option vec6) (t : Q) : vec6 :=
  if feasible t then accepted t else default initial_percentages prev.

Fixpoint rows_from (prev : option vec6) (ts : list Q) : list vec6 :=
  match ts with
  | [] => []
  | t :: ts' => next_row prev t :: rows_from (Some (next_row prev t)) ts'
  end.

Definition row_before (i : nat) (M : list vec6) : option vec6 :=
  match i with O => None | S j => M !! j end.

End SourceMix.


(** The time grid is in increasing order (equal neighbours allowed). *)
Definition increasing (aYear : list Q) : Prop :=
  forall i j ti tj, (i <= j)%nat ->
    aYear !! i = Some ti -> aYear !! j = Some tj -> ti <= tj.

(* ================================================================== *)
(** ** get_aReliability *)
(* ================================================================== *)

Inductive exn : Set := IndexError.

Inductive outcome (A : Type) : Type :=
| Return (a : A)
| Raise (e : exn).
Arguments Return {A} a.
Arguments Raise {A} e.

(** References to array objects, and the store that holds the objects. *)
Definition ref := nat.
Abbreviation heap := (gmap nat vec6).

(** The module-level array [aRelScores]: the default argument of
    [get_aReliability] is bound to this one object when the function is
    defined. *)
Definition aRelScores_ref : ref := 0%nat.

(** The store after the module is loaded. *)
Definition module_heap : heap := {[ aRelScores_ref := Defaults.aRelScores ]}.

(** [Energy_2021 = dirE*2021 - 1.35*10**10] *)
Definition Energy_2021 (dirE : Q) : Q := dirE * 2021 - 1.35e10.

Section Reliability.
Variables (aPercentSources : list vec6) (u : list Q) (scores : vec6).

(** [for i in range(len(aYear)):
       aReliability[i] = u[i]*np.dot(aRelScores, aPercentSources[i,:])] *)
Fixpoint reliability_loop (i : nat) (ts : list Q) (aReliability : list Q)
  : outcome (list Q) :=
  match ts with
  | [] => Return aReliability
  | _ :: ts' =>
      match u !! i, aPercentSources !! i with
      | Some ui, Some row =>
          reliability_loop (S i) ts' (<[i := ui * dot scores row]> aReliability)
      | _, _ => Raise IndexError
      end
  end.
End Reliability.

(** The function, on the array referenced by [aRelScores] in the store
    [h]; it returns its outcome and the store it leaves.  Every reference
    a caller holds points to an array, so the case [h !! aRelScores = None]
    does not arise; it is given the outcome of a failed index. *)
Definition get_aReliability (aYear : list Q) (aPercentSources : list vec6)
    (aEnergy : list Q) (perc_effective dirE : Q) (aRelScores : ref) (h : heap)
  : outcome (list Q) * heap :=
  let aReliability := replicate (length aYear) 0 in
  let E2021 := Energy_2021 dirE in
  match aReliability !! 1%nat with
  | None => (Raise IndexError, h)
  | Some r1 =>
      (* aRelScores[5] = (1-perc_effective/100)*aReliability[1] *)
      let h' := alter (set WinterNG ((1 - perc_effective / 100) * r1)) aRelScores h in
      (* u = aEnergy/Energy_2021 *)
      let u := map (fun e => e / E2021) aEnergy in
      match h' !! aRelScores with
      | None => (Raise IndexError, h')
      | Some scores =>
          (reliability_loop aPercentSources u scores 0 aYear aReliability, h')
      end
  end.

(** A call that leaves every optional argument at its default. *)
Definition get_aReliability_default (aYear : list Q) (aPercentSources : list vec6)
    (aEnergy : list Q) (h : heap) : outcome (list Q) * heap :=
  get_aReliability aYear aPercentSources aEnergy
    Defaults.perc_effective Defaults.dirE aRelScores_ref h.

(* ================================================================== *)
(** ** get_totalEmissions *)
(* ================================================================== *)

(** [delta_t = aYear[-1] - aYear[0]; n = len(aYear);
     net_em = np.sum(aEmissions)*(delta_t/n)] *)
Definition get_totalEmissions (aYear aEmissions : list Q) : outcome Q :=
  match last aYear, head aYear with
  | Some y_last, Some y_first =>
      let delta_t := y_last - y_first in
      let n := len aYear in
      Return (Qsum aEmissions * (delta_t / n))
  | _, _ => Raise IndexError
  end.

(* ================================================================== *)
(** ** get_aYear *)
(* ================================================================== *)

(** [np.arange(0, num)] as numbers *)
Definition arange (num : nat) : list Q :=
  map (fun i => inject_Z (Z.of_nat i)) (seq 0 num).

(** [np.linspace(start, stop, num)] with the end point included, as
    numpy computes it: [arange(0, num) * step + start] with
    [step = (stop - start) / (num - 1)], the last sample then set to
    [stop]; with a single sample there is no step and the sample is
    [0 * (stop - start) + start]. *)
Definition linspace (start stop : Q) (num : nat) : list Q :=
  let div := (num - 1)%nat in
  let delta := stop - start in
  let y :=
    if (0 <? div)%nat
    then map (fun v => v * (delta / inject_Z (Z.of_nat div)) + start) (arange num)
    else map (fun v => v * delta + start) (arange num) in
  if (1 <? num)%nat then <[(num - 1)%nat := stop]> y else y.

(** [return np.linspace(start_year, end_year, size)] *)
Definition get_aYear (start_year end_year : Q) (size : nat) : list Q :=
  linspace start_year end_year size.

(* ================================================================== *)
(** ** The remaining coefficients of the module *)
(* ================================================================== *)

Module Coefficients.
Definition const_costs : vec6 := Vec6 3500 895 2436 1630 5945 899.
Definition rateE_kW : Q := 789954.3379.
Definition gen_costs : vec6 :=
  Vec6 0.05230569948 0.05229477612 0.05233333333
       0.05228571429 0.05229885057 0.05229477612.
Definition non_gen_costs : vec6 :=
  Vec6 0.08514812774 0.02177359266 0.0592630969
       0.03965469949 0.144630177 0.02187004968.
Definition source_emissions : vec6 :=
  Vec6 1.0170164e-8 1.008e-8 0 0 0 1.008e-8.
End Coefficients.

(* ================================================================== *)
(** ** get_aConstructionCost, get_aConsumerCost, get_aEmissions *)
(* ================================================================== *)

(** [v / k], a vector divided by a scalar *)
Definition vdiv (v : vec6) (k : Q) : vec6 :=
  Vec6 (x0 v / k) (x1 v / k) (x2 v / k) (x3 v / k) (x4 v / k) (x5 v / k).

(** [for i in range(len(aYear)): a[i] = value(i)], where computing
    [value(i)] may raise; started at index [i] on the array [a]. *)
Section Fill.
Variable value : nat -> outcome Q.

Fixpoint fill_loop (i : nat) (ts : list Q) (a : list Q) : outcome (list Q) :=
  match ts with
  | [] => Return a
  | _ :: ts' =>
      match value i with
      | Return v => fill_loop (S i) ts' (<[i := v]> a)
      | Raise e => Raise e
      end
  end.
End Fill.

(** [aConstructionCost[i] = rateE_kW*np.dot(aPercentSources[i,:]/100, const_costs)] *)
Definition get_aConstructionCost (aYear : list Q) (aPercentSources : list vec6)
    (const_costs : vec6) (rateE_kW : Q) : outcome (list Q) :=
  let aConstructionCost := replicate (length aYear) 0 in
  fill_loop
    (fun i => match aPercentSources !! i with
              | Some row => Return (rateE_kW * dot (vdiv row 100) const_costs)
              | None => Raise IndexError
              end)
    0 aYear aConstructionCost.

(** [P = aPercentSources[i,:]
     aConsumerCost[i] = 0.56*np.dot(gen_costs, P) + 0.44*np.dot(non_gen_costs, P)] *)
Definition get_aConsumerCost (aYear : list Q) (aPercentSources : list vec6)
    (gen_costs non_gen_costs : vec6) : outcome (list Q) :=
  let aConsumerCost := replicate (length aYear) 0 in
  fill_loop
    (fun i => match aPercentSources !! i with
              | Some P => Return (0.56 * dot gen_costs P + 0.44 * dot non_gen_costs P)
              | None => Raise IndexError
              end)
    0 aYear aConsumerCost.

(** [P = aPercentSources[i,:]
     aEmissions[i] = aEnergy[i]*np.dot(source_emissions, P)] *)
Definition get_aEmissions (aYear : list Q) (aPercentSources : list vec6)
    (aEnergy : list Q) (source_emissions : vec6) : outcome (list Q) :=
  let aEmissions := replicate (length aYear) 0 in
  fill_loop
    (fun i => match aPercentSources !! i with
              | Some P =>
                  match aEnergy !! i with
                  | Some e => Return (e * dot source_emissions P)
                  | None => Raise IndexError
                  end
              | None => Raise IndexError
              end)
    0 aYear aEmissions.


(* ================================================================== *)
(** * The float64 model *)
(* ================================================================== *)

(** The same program on IEEE 754 binary64 numbers: Rocq's primitive
    [float] is numpy's [float64], with the same rounding (to nearest,
    ties to even), the same signed zeros, infinities and NaN.  A literal
    denotes the nearest float, as in Python. *)
Module Float64.
Local Open Scope float_scope.

Record vec6 : Set :=
  Vec6 { x0 : float; x1 : float; x2 : float; x3 : float; x4 : float; x5 : float }.

(** [v[c]] *)
Definition get (c : source) (v : vec6) : float :=
  match c with
  | Coal => x0 v | NaturalGas => x1 v | Solar => x2 v
  | Wind => x3 v | Nuclear => x4 v | WinterNG => x5 v
  end.

(** [v[c] = x] *)
Definition set (c : source) (x : float) (v : vec6) : vec6 :=
  match c with
  | Coal       => Vec6 x (x1 v) (x2 v) (x3 v) (x4 v) (x5 v)
  | NaturalGas => Vec6 (x0 v) x (x2 v) (x3 v) (x4 v) (x5 v)
  | Solar      => Vec6 (x0 v) (x1 v) x (x3 v) (x4 v) (x5 v)
  | Wind       => Vec6 (x0 v) (x1 v) (x2 v) x (x4 v) (x5 v)
  | Nuclear    => Vec6 (x0 v) (x1 v) (x2 v) (x3 v) x (x5 v)
  | WinterNG   => Vec6 (x0 v) (x1 v) (x2 v) (x3 v) (x4 v) x
  end.

(** [np.zeros(6)] *)
Definition vzero : vec6 := Vec6 0 0 0 0 0 0.

(** [v * k], a vector times a scalar *)
Definition vscale (v : vec6) (k : float) : vec6 :=
  Vec6 (x0 v * k) (x1 v * k) (x2 v * k) (x3 v * k) (x4 v * k) (x5 v * k).

(** [a + b], elementwise *)
Definition vadd (a b : vec6) : vec6 :=
  Vec6 (x0 a + x0 b) (x1 a + x1 b) (x2 a + x2 b)
       (x3 a + x3 b) (x4 a + x4 b) (x5 a + x5 b).

(** [np.sum(v)]: six entries are added one after the other. *)
Definition vsum (v : vec6) : float := x0 v + x1 v + x2 v + x3 v + x4 v + x5 v.

(** [np.dot(a, b)].  numpy leaves the order in which the six products
    are added to the linear-algebra library; here they are added one
    after the other, from index 0 on. *)
Definition dot (a b : vec6) : float :=
  x0 a * x0 b + x1 a * x1 b + x2 a * x2 b
  + x3 a * x3 b + x4 a * x4 b + x5 a * x5 b.

(** [x ** 2], taken as the rounded product [x * x].  The statements
    about [get_aPercentSources] below hold whatever float the power
    returns: they use no property of [square]. *)
Definition square (x : float) : float := x * x.

(** [v[c] >= 0] holds at every index. *)
Definition nonneg (v : vec6) : Prop := forall c, (0 <=? get c v) = true.

(** [v[c] == 0] holds at every index (either zero, [0.0] or [-0.0]). *)
Definition all_zero (v : vec6) : Prop := forall c, (get c v =? 0) = true.

(** Neither an infinity nor NaN. *)
Definition finite (x : float) : bool :=
  match Prim2SF x with
  | S754_zero _ | S754_finite _ _ _ => true
  | _ => false
  end.

(** Two floats that stand for the same value: the same float (NaN with
    NaN), or two zeros, [0.0] and [-0.0], which the program's [==]
    takes for equal. *)
Definition same (x y : float) : Prop :=
  x = y \/ ((x =? 0) = true /\ (y =? 0) = true).

(** The number a float stands for; [None] for an infinity and for NaN. *)
Definition to_Q (x : float) : option Q :=
  match Prim2SF x with
  | S754_zero _ => Some 0%Q
  | S754_finite s m e =>
      let v := (inject_Z (Z.pos m) * Qpower 2 e)%Q in
      Some (if s then (- v)%Q else v)
  | _ => None
  end.

(** The sum of the six numbers a vector holds, without rounding. *)
Definition vsum_exact (v : vec6) : option Q :=
  match to_Q (x0 v), to_Q (x1 v), to_Q (x2 v), to_Q (x3 v), to_Q (x4 v), to_Q (x5 v) with
  | Some a, Some b, Some c, Some d, Some e, Some f => Some (a + b + c + d + e + f)%Q
  | _, _, _, _, _, _ => None
  end.

Module Defaults.
Definition initial_percentages : vec6 := Vec6 19.3 53.6 0.9 17.5 8.7 0.
Definition derivative_sources : vec6 := Vec6 (-1.89) 0 0.0976 1.29 (-0.116) 0.
Definition sec_derivative_sources : vec6 := vzero.
Definition aRelScores : vec6 :=
  Vec6 (-9192.435233) (-5811.753731) 26687.77778
       (-5368.914286) (-8413.448276) 0.
Definition perc_effective : float := 83.5.
Definition dirE : float := 6.92e6.
End Defaults.

(** [aEnergy = dirE*aYear - 1.35*10**10] *)
Definition get_aEnergy (aYear : list float) (dirE : float) : list float :=
  map (fun y => dirE * y - 1.35e10) aYear.

Section ForEach.
Context {St : Type}.
Variable body : nat -> float -> St -> St.

Fixpoint for_each (i : nat) (ts : list float) (s : St) : St :=
  match ts with
  | [] => s
  | t :: ts' => for_each (S i) ts' (body i t s)
  end.
End ForEach.

Section SourceMix.
Variables initial_percentages derivative_sources sec_derivative_sources : vec6.

(** [P = sec_derivative_sources*(0.5*(aYear[i]-2021)**2)
        + derivative_sources*(aYear[i]-2021) + initial_percentages] *)
Definition candidate (t : float) : vec6 :=
  vadd (vadd (vscale sec_derivative_sources (0.5 * square (t - 2021)))
             (vscale derivative_sources (t - 2021)))
       initial_percentages.

(** [if P[c] < 0: P[c] = 0]; the test is false on NaN. *)
Definition clamp_negative (c : source) (P : vec6) : vec6 :=
  if get c P <? 0 then set c 0 P else P.

(** The five tests of the loop body: indices 0, 2, 3, 4, 5. *)
Definition clamp (P : vec6) : vec6 :=
  clamp_negative WinterNG
    (clamp_negative Nuclear
       (clamp_negative Wind
          (clamp_negative Solar
             (clamp_negative Coal P)))).

(** [NG = 100-(P[0]+P[2]+P[3]+P[4]+P[5])], each operation rounded *)
Definition slack (P : vec6) : float :=
  100 - (get Coal P + get Solar P + get Wind P + get Nuclear P + get WinterNG P).

(** One iteration of the loop; [NG >= 0] is false on NaN. *)
Definition loop_body (i : nat) (t : float) (M : list vec6) : list vec6 :=
  let P := clamp (candidate t) in
  let NG := slack P in
  if 0 <=? NG then
    (* aPercentSources[i,:] = P ; aPercentSources[i,1] = NG *)
    alter (set NaturalGas NG) i (<[i := P]> M)
  else if (0 <? i)%nat then
    (* aPercentSources[i,:] = aPercentSources[i-1,:] *)
    match M !! (i - 1)%nat with
    | Some prev => <[i := prev]> M
    | None => M
    end
  else
    (* aPercentSources[i,:] = initial_percentages *)
    <[i := initial_percentages]> M.

Definition get_aPercentSources (aYear : list float) : list vec6 :=
  for_each loop_body 0 aYear (replicate (length aYear) vzero).

(** The loop as a fold carrying the previous row. *)
Definition feasible (t : float) : bool := 0 <=? slack (clamp (candidate t)).

Definition accepted (t : float) : vec6 :=
  set NaturalGas (slack (clamp (candidate t))) (clamp (candidate t)).

Definition next_row (prev : option vec6) (t : float) : vec6 :=
  if feasible t then accepted t else default initial_percentages prev.

Fixpoint rows_from (prev : option vec6) (ts : list float) : list vec6 :=
  match ts with
  | [] => []
  | t :: ts' => next_row prev t :: rows_from (Some (next_row prev t)) ts'
  end.

Definition row_before (i : nat) (M : list vec6) : option vec6 :=
  match i with O => None | S j => M !! j end.

End SourceMix.

(** The store of coefficient arrays. *)
Abbreviation heap := (gmap nat vec6).

Definition module_heap : heap := {[ aRelScores_ref := Defaults.aRelScores ]}.

(** [Energy_2021 = dirE*2021 - 1.35*10**10] *)
Definition Energy_2021 (dirE : float) : float := dirE * 2021 - 1.35e10.

Section Reliability.
Variables (aPercentSources : list vec6) (u : list float) (scores : vec6).

(** [for i in range(len(aYear)):
       aReliability[i] = u[i]*np.dot(aRelScores, aPercentSources[i,:])] *)
Fixpoint reliability_loop (i : nat) (ts : list float) (aReliability : list float)
  : outcome (list float) :=
  match ts with
  | [] => Return aReliability
  | _ :: ts' =>
      match u !! i, aPercentSources !! i with
      | Some ui, Some row =>
          reliability_loop (S i) ts' (<[i := ui * dot scores row]> aReliability)
      | _, _ => Raise IndexError
      end
  end.
End Reliability.

(** The function, on the array referenced by [aRelScores] in the store
    [h]; it returns its outcome and the store it leaves. *)
Definition get_aReliability (aYear : list float) (aPercentSources : list vec6)
    (aEnergy : list float) (perc_effective dirE : float) (aRelScores : ref)
    (h : heap) : outcome (list float) * heap :=
  let aReliability := replicate (length aYear) 0 in
  let E2021 := Energy_2021 dirE in
  match aReliability !! 1%nat with
  | None => (Raise IndexError, h)
  | Some r1 =>
      (* aRelScores[5] = (1-perc_effective/100)*aReliability[1] *)
      let h' := alter (set WinterNG ((1 - perc_effective / 100) * r1)) aRelScores h in
      (* u = aEnergy/Energy_2021 *)
      let u := map (fun e => e / E2021) aEnergy in
      match h' !! aRelScores with
      | None => (Raise IndexError, h')
      | Some scores =>
          (reliability_loop aPercentSources u scores 0 aYear aReliability, h')
      end
  end.

(** Two outcomes are the same: the same exception, or arrays of the
    same values. *)
Definition outcome_same (o o' : outcome (list float)) : Prop :=
  match o, o' with
  | Return l, Return l' => Forall2 same l l'
  | Raise e, Raise e' => e = e'
  | _, _ => False
  end.

End Float64.

(* ================================================================== *)
(** * Properties *)
(* ================================================================== *)

(** ** Tests and vectors *)

Lemma Qltb_true x y : Qltb x y = true <-> x < y.
Proof.
  unfold Qltb. rewrite negb_true_iff, <- not_true_iff_false, Qle_bool_iff.
  split; [apply Qnot_le_lt | apply Qlt_not_le].
Qed.

Lemma Qltb_false x y : Qltb x y = false <-> y <= x.
Proof. unfold Qltb. rewrite negb_false_iff. apply Qle_bool_iff. Qed.

Lemma Qgeb_true x y : Qgeb x y = true <-> y <= x.
Proof. apply Qle_bool_iff. Qed.

Lemma Qgeb_false x y : Qgeb x y = false <-> x < y.
Proof.
  unfold Qgeb. rewrite <- not_true_iff_false, Qle_bool_iff.
  split; [apply Qnot_le_lt | apply Qlt_not_le].
Qed.

Lemma get_set_eq c x v : get c (set c x v) = x.
Proof. destruct c; reflexivity. Qed.

Lemma get_set_ne c c' x v : c <> c' -> get c' (set c x v) = get c' v.
Proof. destruct c, c'; intros H; try congruence; reflexivity. Qed.

Lemma vec6_ext a b : (forall c, get c a = get c b) -> a = b.
Proof.
  intros H. destruct a, b.
  pose proof (H Coal) as H0. pose proof (H NaturalGas) as H1.
  pose proof (H Solar) as H2. pose proof (H Wind) as H3.
  pose proof (H Nuclear) as H4. pose proof (H WinterNG) as H5.
  cbn [get x0 x1 x2 x3 x4 x5] in *. congruence.
Qed.




(** ** The generic loop *)

Section ForEachFacts.
Context {St : Type}.
Variable body : nat -> Q -> St -> St.

Lemma for_each_nil i s : for_each body i [] s = s.
Proof. reflexivity. Qed.

Lemma for_each_cons i t ts s :
  for_each body i (t :: ts) s = for_each body (S i) ts (body i t s).
Proof. reflexivity. Qed.
End ForEachFacts.

(** ** One row of the trajectory *)

Section SourceMixFacts.
Variables initial_percentages derivative_sources sec_derivative_sources : vec6.

Local Abbreviation candidate := (candidate initial_percentages derivative_sources sec_derivative_sources).
Local Abbreviation loop_body := (loop_body initial_percentages derivative_sources sec_derivative_sources).
Local Abbreviation feasible := (feasible initial_percentages derivative_sources sec_derivative_sources).
Local Abbreviation accepted := (accepted initial_percentages derivative_sources sec_derivative_sources).
Local Abbreviation next_row := (next_row initial_percentages derivative_sources sec_derivative_sources).
Local Abbreviation rows_from := (rows_from initial_percentages derivative_sources sec_derivative_sources).
Local Abbreviation get_aPercentSources :=
  (get_aPercentSources initial_percentages derivative_sources sec_derivative_sources).

Lemma candidate_get c t :
  get c (candidate t)
  = get c sec_derivative_sources * (0.5 * (t - 2021) ^ 2)
    + get c derivative_sources * (t - 2021)
    + get c initial_percentages.
Proof. destruct c; reflexivity. Qed.

Lemma clamp_negative_same c P :
  get c (clamp_negative c P) = if Qltb (get c P) 0 then 0 else get c P.
Proof.
  unfold clamp_negative. destruct (Qltb (get c P) 0).
  - apply get_set_eq.
  - reflexivity.
Qed.

Lemma clamp_negative_other c c' P :
  c <> c' -> get c' (clamp_negative c P) = get c' P.
Proof.
  intros H. unfold clamp_negative. destruct (Qltb (get c P) 0).
  - now apply get_set_ne.
  - reflexivity.
Qed.

(** Channels 0, 2, 3, 4, 5 are clamped at zero. *)
Lemma clamp_get c P :
  clamped c -> get c (clamp P) = if Qltb (get c P) 0 then 0 else get c P.
Proof.
  intros Hc. unfold clamp.
  destruct c; try (now elim Hc);
    rewrite ?clamp_negative_other by discriminate;
    rewrite clamp_negative_same;
    rewrite ?clamp_negative_other by discriminate;
    reflexivity.
Qed.

(** Channel 1 is never clamped. *)
Lemma clamp_get_slack P : get NaturalGas (clamp P) = get NaturalGas P.
Proof. unfold clamp. now rewrite !clamp_negative_other by discriminate. Qed.

Lemma clamp_nonneg c P : clamped c -> 0 <= get c (clamp P).
Proof.
  intros Hc. rewrite clamp_get by assumption.
  destruct (Qltb (get c P) 0) eqn:E.
  - apply Qle_refl.
  - now apply Qltb_false.
Qed.

Lemma feasible_true t : feasible t = true <-> 0 <= slack (clamp (candidate t)).
Proof. apply Qgeb_true. Qed.

Lemma feasible_false t : feasible t = false <-> slack (clamp (candidate t)) < 0.
Proof. apply Qgeb_false. Qed.

Lemma accepted_get_clamped c t :
  clamped c -> get c (accepted t) = get c (clamp (candidate t)).
Proof. intros Hc. unfold accepted. apply get_set_ne. congruence. Qed.



(** ** The loop and the rows it writes *)

Lemma loop_body_length i t M : length (loop_body i t M) = length M.
Proof.
  unfold loop_body.
  destruct (Qgeb _ 0).
  - now rewrite length_alter, length_insert.
  - destruct (0 <? i)%nat.
    + destruct (M !! (i - 1)%nat); [apply length_insert | reflexivity].
    + apply length_insert.
Qed.

(** Row [i-1] exists whenever the body runs at an index [i > 0] inside
    the matrix: the program never indexes out of range. *)
Lemma loop_body_reads_in_range i (M : list vec6) :
  (0 < i)%nat -> (i < length M)%nat -> is_Some (M !! (i - 1)%nat).
Proof. intros H0 Hi. apply lookup_lt_is_Some. lia. Qed.

Lemma row_before_S i (M : list vec6) : row_before (S i) M = M !! i.
Proof. reflexivity. Qed.

Lemma loop_body_row i t (M : list vec6) :
  (i < length M)%nat ->
  loop_body i t M = <[i := next_row (row_before i M) t]> M.
Proof.
  intros Hi.
  unfold loop_body, next_row, feasible, accepted.
  destruct (Qgeb _ 0) eqn:E.
  - apply list_eq. intros k.
    destruct (decide (k = i)) as [->|Hk].
    + rewrite list_lookup_alter_eq, !list_lookup_insert_eq by
        (rewrite ?length_insert; lia).
      reflexivity.
    + rewrite list_lookup_alter_ne, !list_lookup_insert_ne by congruence.
      reflexivity.
  - destruct i as [|j].
    + reflexivity.
    + rewrite row_before_S.
      replace (S j - 1)%nat with j by lia.
      replace (0 <? S j)%nat with true by reflexivity.
      destruct (M !! j) eqn:Ej; [reflexivity|].
      apply lookup_ge_None in Ej. lia.
Qed.

Lemma rows_from_cons prev t ts :
  rows_from prev (t :: ts) = next_row prev t :: rows_from (Some (next_row prev t)) ts.
Proof. reflexivity. Qed.

Lemma loop_rows ts : forall i (M : list vec6),
  length M = (i + length ts)%nat ->
  for_each loop_body i ts M = take i M ++ rows_from (row_before i M) ts.
Proof.
  induction ts as [|t ts IH]; intros i M HM.
  - rewrite for_each_nil, length_nil in *.
    rewrite take_ge by lia. now rewrite app_nil_r.
  - rewrite length_cons in HM.
    rewrite for_each_cons, rows_from_cons.
    rewrite IH by (rewrite loop_body_length; lia).
    rewrite loop_body_row by lia.
    rewrite (take_S_r _ i (next_row (row_before i M) t))
      by (apply list_lookup_insert_eq; lia).
    rewrite take_insert_ge by lia.
    rewrite <- app_assoc, row_before_S.
    rewrite (list_lookup_insert_eq M i) by lia.
    reflexivity.
Qed.

Lemma get_aPercentSources_rows aYear :
  get_aPercentSources aYear = rows_from None aYear.
Proof.
  unfold get_aPercentSources.
  rewrite loop_rows by (rewrite length_replicate; lia).
  now rewrite take_0.
Qed.

Lemma rows_from_length ts : forall prev, length (rows_from prev ts) = length ts.
Proof.
  induction ts as [|t ts IH]; intros prev; [reflexivity|].
  rewrite rows_from_cons, !length_cons. now rewrite IH.
Qed.

Lemma rows_from_lookup ts : forall prev k t,
  ts !! k = Some t ->
  rows_from prev ts !! k
  = Some (next_row (match k with O => prev | S j => rows_from prev ts !! j end) t).
Proof.
  induction ts as [|t0 ts IH]; intros prev k t Hk; [discriminate|].
  rewrite rows_from_cons.
  destruct k as [|k].
  - injection Hk as ->. reflexivity.
  - change ((t0 :: ts) !! S k) with (ts !! k) in Hk.
    change ((next_row prev t0 :: rows_from (Some (next_row prev t0)) ts) !! S k)
      with (rows_from (Some (next_row prev t0)) ts !! k).
    rewrite (IH _ _ _ Hk).
    destruct k as [|j]; reflexivity.
Qed.

Lemma get_aPercentSources_length aYear :
  length (get_aPercentSources aYear) = length aYear.
Proof. rewrite get_aPercentSources_rows. apply rows_from_length. Qed.

(** The row written at index [k]: the accepted candidate when the slack
    is nonnegative, else the row at [k-1], else [initial_percentages]. *)
Lemma get_aPercentSources_row aYear k t :
  aYear !! k = Some t ->
  get_aPercentSources aYear !! k
  = Some (next_row (row_before k (get_aPercentSources aYear)) t).
Proof.
  intros Hk. rewrite get_aPercentSources_rows.
  rewrite (rows_from_lookup _ _ _ _ Hk).
  destruct k; reflexivity.
Qed.

Lemma row_accepted aYear k t :
  aYear !! k = Some t -> feasible t = true ->
  get_aPercentSources aYear !! k = Some (accepted t).
Proof.
  intros Hk F. rewrite (get_aPercentSources_row _ _ _ Hk).
  unfold next_row. now rewrite F.
Qed.

Lemma row_frozen aYear k t :
  aYear !! k = Some t -> feasible t = false ->
  get_aPercentSources aYear !! k
  = Some (default initial_percentages (row_before k (get_aPercentSources aYear))).
Proof.
  intros Hk F. rewrite (get_aPercentSources_row _ _ _ Hk).
  unfold next_row. now rewrite F.
Qed.

Lemma row_has_sample aYear k row :
  get_aPercentSources aYear !! k = Some row -> exists t, aYear !! k = Some t.
Proof.
  intros H. apply lookup_lt_Some in H.
  rewrite get_aPercentSources_length in H.
  now apply lookup_lt_is_Some in H.
Qed.



(** A frozen row repeats its predecessor. *)
Lemma row_frozen_S aYear k t :
  aYear !! S k = Some t -> feasible t = false ->
  exists r, get_aPercentSources aYear !! k = Some r /\
            get_aPercentSources aYear !! S k = Some r.
Proof.
  intros Hk F.
  assert (is_Some (get_aPercentSources aYear !! k)) as [r Hr].
  { apply lookup_lt_is_Some. rewrite get_aPercentSources_length.
    apply lookup_lt_Some in Hk. lia. }
  exists r. split; [exact Hr|].
  rewrite (row_frozen _ _ _ Hk F), row_before_S, Hr. reflexivity.
Qed.

(** The frozen row is carried over a run of infeasible samples. *)
Lemma row_frozen_run aYear k n :
  (k + n < length aYear)%nat ->
  (forall j tj, (k < j <= k + n)%nat -> aYear !! j = Some tj -> feasible tj = false) ->
  get_aPercentSources aYear !! (k + n)%nat = get_aPercentSources aYear !! k.
Proof.
  induction n as [|n IH]; intros Hlen Hrun.
  - now rewrite Nat.add_0_r.
  - rewrite <- IH by (try lia; intros j tj Hj; apply Hrun; lia).
    replace (k + S n)%nat with (S (k + n)) in * by lia.
    destruct (lookup_lt_is_Some_2 aYear (S (k + n)) Hlen) as [t Ht].
    destruct (row_frozen_S aYear (k + n) t Ht) as (r & Hr & Hr').
    { apply (Hrun (S (k + n))); [lia | exact Ht]. }
    now rewrite Hr, Hr'.
Qed.

End SourceMixFacts.

(* ================================================================== *)
(** * The reference run, evaluated *)
(* ================================================================== *)

(** The default parameters at the two ends of the default horizon. *)
Example default_trajectory_2021_2030 :
  Forall2 veq
    (get_aPercentSources Defaults.initial_percentages Defaults.derivative_sources
       Defaults.sec_derivative_sources [2021; 2030])
    [Vec6 19.3 53.6 0.9 17.5 8.7 0;
     Vec6 2.29 59.1656 1.7784 29.11 7.656 0].
Proof. vm_compute. repeat constructor. Qed.

(** A Solar trend that overshoots and comes back while Coal declines:
    the samples 2022 to 2024 are infeasible and repeat the row of 2021,
    the sample 2025 is feasible again and gets its own row. *)
Example freeze_then_recover :
  Forall2 veq
    (get_aPercentSources Defaults.initial_percentages
       (Vec6 (-1) 0 80 0 0 0) (Vec6 0 0 (-40) 0 0 0)
       [2021; 2022; 2023; 2024; 2025])
    [Vec6 19.3 53.6 0.9 17.5 8.7 0;
     Vec6 19.3 53.6 0.9 17.5 8.7 0;
     Vec6 19.3 53.6 0.9 17.5 8.7 0;
     Vec6 19.3 53.6 0.9 17.5 8.7 0;
     Vec6 15.3 57.6 0.9 17.5 8.7 0].
Proof. vm_compute. repeat constructor. Qed.

(** An infeasible first sample falls back to [initial_percentages], here
    an array that is not a valid mix, copied as it is. *)
Example first_sample_falls_back :
  get_aPercentSources (Vec6 60 0 60 0 0 0) vzero vzero [2021]
  = [Vec6 60 0 60 0 0 0].
Proof. vm_compute. reflexivity. Qed.

(** [Energy_2021] with the default slope. *)
Example energy_2021_default : Energy_2021 Defaults.dirE == 485320000.
Proof. vm_compute. reflexivity. Qed.

(* ================================================================== *)
(** * The float64 model: properties *)
(* ================================================================== *)

(** ** Comparisons, NaN and zeros *)

(** A float that is a number: not NaN. *)
Local Abbreviation number x := (Prim2SF x <> S754_nan).

Lemma f64_zero_spec : Prim2SF 0%float = S754_zero false.
Proof. reflexivity. Qed.

(** [0 <= x] holds only for numbers. *)
Lemma f64_nonneg_number (x : float) : (0 <=? x)%float = true -> number x.
Proof.
  rewrite leb_spec, f64_zero_spec. intros H E. rewrite E in H. discriminate.
Qed.

(** [x < 0] holds only for numbers. *)
Lemma f64_negative_number (x : float) : (x <? 0)%float = true -> number x.
Proof.
  rewrite ltb_spec, f64_zero_spec. intros H E. rewrite E in H. discriminate.
Qed.

(** A number that is not negative is nonnegative. *)
Lemma f64_not_negative (x : float) :
  number x -> (x <? 0)%float = false -> (0 <=? x)%float = true.
Proof.
  rewrite ltb_spec, leb_spec, f64_zero_spec.
  destruct (Prim2SF x) as [s|s| |s m e]; try congruence;
    destruct s; intros _ H; try discriminate H; reflexivity.
Qed.

(** A sum or a difference that is a number has numbers as operands. *)
Lemma f64_add_number (x y : float) : number (x + y) -> number x /\ number y.
Proof.
  rewrite add_spec. intros H.
  split; intros E; apply H; rewrite E; [reflexivity|].
  destruct (Prim2SF x); reflexivity.
Qed.

Lemma f64_sub_number (x y : float) : number (x - y) -> number x /\ number y.
Proof.
  rewrite sub_spec. intros H.
  split; intros E; apply H; rewrite E; [reflexivity|].
  destruct (Prim2SF x); reflexivity.
Qed.

(** A number equals itself. *)
Lemma SFcompare_refl (X : spec_float) : X <> S754_nan -> SFcompare X X = Some Eq.
Proof.
  destruct X as [s|s| |s m e]; intros H; try congruence.
  - reflexivity.
  - destruct s; reflexivity.
  - cbn [SFcompare].
    change (IntDef.Z.compare e e) with (Z.compare e e).
    change (PosDef.Pos.compare_cont Eq m m) with (Pos.compare_cont Eq m m).
    rewrite (Z.compare_refl e), (Pos.compare_cont_refl m Eq).
    destruct s; reflexivity.
Qed.

Lemma f64_eqb_refl (x : float) : number x -> (x =? x)%float = true.
Proof.
  intros H. rewrite FloatAxioms.eqb_spec. unfold SFeqb. now rewrite SFcompare_refl.
Qed.

(** [z == 0] holds for the two zeros only. *)
Lemma f64_is_zero (z : float) :
  (z =? 0)%float = true -> exists s, Prim2SF z = S754_zero s.
Proof.
  rewrite FloatAxioms.eqb_spec, f64_zero_spec.
  destruct (Prim2SF z) as [s|s| |s m e]; intros H.
  - now exists s.
  - destruct s; discriminate H.
  - discriminate H.
  - destruct s; discriminate H.
Qed.

(** The candidate of a channel whose two trend entries are zero, when it
    is a number, is not negative and equals the initial percentage. *)
Lemma SF_zero_trend (A B X : spec_float) (s2 s1 : bool) :
  SFleb (S754_zero false) X = true ->
  let C := SF64add (SF64add (SF64mul (S754_zero s2) A) (SF64mul (S754_zero s1) B)) X in
  C <> S754_nan ->
  SFltb C (S754_zero false) = false /\ SFeqb C X = true.
Proof.
  intros HX C. subst C.
  assert (HXX : SFeqb X X = true).
  { unfold SFeqb. rewrite SFcompare_refl; [reflexivity|].
    intros E. rewrite E in HX. discriminate. }
  destruct X as [sx|sx| |sx mx ex]; try discriminate HX;
    try (destruct sx; try discriminate HX);
    destruct A as [sa|sa| |sa ma ea], B as [sb|sb| |sb mb eb];
    destruct s2, s1; try destruct sa; try destruct sb;
    cbn; intros H; try congruence; (split; [reflexivity | try reflexivity; exact HXX]).
Qed.

Lemma f64_zero_trend (z2 z1 a b x : float) :
  (z2 =? 0)%float = true -> (z1 =? 0)%float = true ->
  (0 <=? x)%float = true ->
  let c := (z2 * a + z1 * b + x)%float in
  number c ->
  (c <? 0)%float = false /\ (c =? x)%float = true.
Proof.
  intros H2 H1 Hx c Hc.
  destruct (f64_is_zero _ H2) as [s2 E2].
  destruct (f64_is_zero _ H1) as [s1 E1].
  rewrite leb_spec, f64_zero_spec in Hx.
  rewrite ltb_spec, FloatAxioms.eqb_spec, f64_zero_spec.
  unfold c in *. rewrite !add_spec, !mul_spec, E2, E1 in *.
  now apply SF_zero_trend.
Qed.

(** ** Vectors *)

Lemma f64_get_set_eq c x v : Float64.get c (Float64.set c x v) = x.
Proof. destruct c; reflexivity. Qed.

Lemma f64_get_set_ne c c' x v :
  c <> c' -> Float64.get c' (Float64.set c x v) = Float64.get c' v.
Proof. destruct c, c'; intros H; try congruence; reflexivity. Qed.

(** The slack reads the five clamped channels only. *)
Lemma f64_slack_set_slack x P :
  Float64.slack (Float64.set NaturalGas x P) = Float64.slack P.
Proof. reflexivity. Qed.

Lemma f64_for_each_cons {St} (body : nat -> float -> St -> St) i t ts s :
  Float64.for_each body i (t :: ts) s = Float64.for_each body (S i) ts (body i t s).
Proof. reflexivity. Qed.

(** ** One row of the trajectory *)

Section Float64SourceMixFacts.
Variables initial_percentages derivative_sources sec_derivative_sources : Float64.vec6.

Local Abbreviation candidate :=
  (Float64.candidate initial_percentages derivative_sources sec_derivative_sources).
Local Abbreviation loop_body :=
  (Float64.loop_body initial_percentages derivative_sources sec_derivative_sources).
Local Abbreviation feasible :=
  (Float64.feasible initial_percentages derivative_sources sec_derivative_sources).
Local Abbreviation accepted :=
  (Float64.accepted initial_percentages derivative_sources sec_derivative_sources).
Local Abbreviation next_row :=
  (Float64.next_row initial_percentages derivative_sources sec_derivative_sources).
Local Abbreviation rows_from :=
  (Float64.rows_from initial_percentages derivative_sources sec_derivative_sources).
Local Abbreviation get_aPercentSources :=
  (Float64.get_aPercentSources initial_percentages derivative_sources
     sec_derivative_sources).

Lemma f64_candidate_get c t :
  Float64.get c (candidate t)
  = (Float64.get c sec_derivative_sources * (0.5 * Float64.square (t - 2021))
     + Float64.get c derivative_sources * (t - 2021)
     + Float64.get c initial_percentages)%float.
Proof. destruct c; reflexivity. Qed.

Lemma f64_clamp_negative_same c P :
  Float64.get c (Float64.clamp_negative c P)
  = if (Float64.get c P <? 0)%float then 0%float else Float64.get c P.
Proof.
  unfold Float64.clamp_negative. destruct (Float64.get c P <? 0)%float.
  - apply f64_get_set_eq.
  - reflexivity.
Qed.

Lemma f64_clamp_negative_other c c' P :
  c <> c' -> Float64.get c' (Float64.clamp_negative c P) = Float64.get c' P.
Proof.
  intros H. unfold Float64.clamp_negative. destruct (Float64.get c P <? 0)%float.
  - now apply f64_get_set_ne.
  - reflexivity.
Qed.

Lemma f64_clamp_get c P :
  clamped c ->
  Float64.get c (Float64.clamp P)
  = if (Float64.get c P <? 0)%float then 0%float else Float64.get c P.
Proof.
  intros Hc. unfold Float64.clamp.
  destruct c; try (now elim Hc);
    rewrite ?f64_clamp_negative_other by discriminate;
    rewrite f64_clamp_negative_same;
    rewrite ?f64_clamp_negative_other by discriminate;
    reflexivity.
Qed.

(** A nonnegative slack was computed from five numbers. *)
Lemma f64_slack_numbers P c :
  (0 <=? Float64.slack P)%float = true -> clamped c ->
  Prim2SF (Float64.get c P) <> S754_nan.
Proof.
  intros H Hc. apply f64_nonneg_number in H. unfold Float64.slack in H.
  apply f64_sub_number in H as [_ H].
  apply f64_add_number in H as [H H5].
  apply f64_add_number in H as [H H4].
  apply f64_add_number in H as [H H3].
  apply f64_add_number in H as [H0 H2].
  destruct c; try assumption. now elim Hc.
Qed.

(** In an accepted row every clamped channel is nonnegative, and so is
    the slack. *)
Lemma f64_accepted_nonneg t : feasible t = true -> Float64.nonneg (accepted t).
Proof.
  intros F c. unfold Float64.accepted.
  destruct (decide (c = NaturalGas)) as [->|Hc].
  - rewrite f64_get_set_eq. exact F.
  - rewrite f64_get_set_ne by congruence.
    pose proof (f64_slack_numbers _ c F Hc) as Hn.
    rewrite f64_clamp_get in * by exact Hc.
    destruct (Float64.get c (candidate t) <? 0)%float eqn:E.
    + reflexivity.
    + now apply f64_not_negative.
Qed.

Lemma f64_accepted_slack t :
  Float64.get NaturalGas (accepted t) = Float64.slack (accepted t).
Proof. unfold Float64.accepted. now rewrite f64_get_set_eq, f64_slack_set_slack. Qed.

(** ** The loop and the rows it writes *)

Lemma f64_loop_body_length i t M : length (loop_body i t M) = length M.
Proof.
  unfold Float64.loop_body.
  destruct (0 <=? _)%float.
  - now rewrite length_alter, length_insert.
  - destruct (0 <? i)%nat.
    + destruct (M !! (i - 1)%nat); [apply length_insert | reflexivity].
    + apply length_insert.
Qed.

Lemma f64_loop_body_row i t (M : list Float64.vec6) :
  (i < length M)%nat ->
  loop_body i t M = <[i := next_row (Float64.row_before i M) t]> M.
Proof.
  intros Hi.
  unfold Float64.loop_body, Float64.next_row, Float64.feasible, Float64.accepted.
  destruct (0 <=? _)%float eqn:E.
  - apply list_eq. intros k.
    destruct (decide (k = i)) as [->|Hk].
    + rewrite list_lookup_alter_eq, !list_lookup_insert_eq by
        (rewrite ?length_insert; lia).
      reflexivity.
    + rewrite list_lookup_alter_ne, !list_lookup_insert_ne by congruence.
      reflexivity.
  - destruct i as [|j].
    + reflexivity.
    + cbn [Float64.row_before].
      replace (S j - 1)%nat with j by lia.
      replace (0 <? S j)%nat with true by reflexivity.
      destruct (M !! j) eqn:Ej; [reflexivity|].
      apply lookup_ge_None in Ej. lia.
Qed.

Lemma f64_rows_from_cons prev t ts :
  rows_from prev (t :: ts)
  = next_row prev t :: rows_from (Some (next_row prev t)) ts.
Proof. reflexivity. Qed.

Lemma f64_loop_rows ts : forall i (M : list Float64.vec6),
  length M = (i + length ts)%nat ->
  Float64.for_each loop_body i ts M
  = take i M ++ rows_from (Float64.row_before i M) ts.
Proof.
  induction ts as [|t ts IH]; intros i M HM.
  - cbn [Float64.for_each Float64.rows_from]. rewrite length_nil in HM.
    rewrite take_ge by lia. now rewrite app_nil_r.
  - rewrite length_cons in HM.
    rewrite f64_for_each_cons, f64_rows_from_cons.
    rewrite IH by (rewrite f64_loop_body_length; lia).
    rewrite f64_loop_body_row by lia.
    rewrite (take_S_r _ i (next_row (Float64.row_before i M) t))
      by (apply list_lookup_insert_eq; lia).
    rewrite take_insert_ge by lia.
    rewrite <- app_assoc. cbn [Float64.row_before].
    rewrite (list_lookup_insert_eq M i) by lia.
    reflexivity.
Qed.

Lemma f64_get_aPercentSources_rows aYear :
  get_aPercentSources aYear = rows_from None aYear.
Proof.
  unfold Float64.get_aPercentSources.
  rewrite f64_loop_rows by (rewrite length_replicate; lia).
  now rewrite take_0.
Qed.

(** A property of [initial_percentages] and of every accepted row is a
    property of every row. *)
Lemma f64_rows_invariant (Inv : Float64.vec6 -> Prop) :
  Inv initial_percentages ->
  (forall t, feasible t = true -> Inv (accepted t)) ->
  forall aYear, Forall Inv (get_aPercentSources aYear).
Proof.
  intros Hinit Hacc aYear. rewrite f64_get_aPercentSources_rows.
  assert (Hnext : forall prev t, (forall r, prev = Some r -> Inv r) ->
                                 Inv (next_row prev t)).
  { intros prev t Hp. unfold Float64.next_row.
    destruct (feasible t) eqn:F; [now apply Hacc|].
    destruct prev as [r|]; [now apply Hp | exact Hinit]. }
  assert (H : forall ts prev, (forall r, prev = Some r -> Inv r) ->
                              Forall Inv (rows_from prev ts)).
  { induction ts as [|t ts IH]; intros prev Hp; [constructor|].
    rewrite f64_rows_from_cons. constructor; [now apply Hnext|].
    apply IH. intros r [= <-]. now apply Hnext. }
  apply H. discriminate.
Qed.

End Float64SourceMixFacts.

(** ** The reliability series *)

Lemma f64_nan_spec : Prim2SF nan = S754_nan.
Proof. reflexivity. Qed.

(** The coefficient written: a zero when the factor is finite, NaN when
    it is not. *)
Lemma f64_times_zero (x : float) :
  (if Float64.finite x then (x * 0 =? 0)%float = true else (x * 0)%float = nan).
Proof.
  unfold Float64.finite.
  destruct (Prim2SF x) as [s|s| |s m e] eqn:E.
  - rewrite FloatAxioms.eqb_spec, mul_spec, E. destruct s; reflexivity.
  - apply Prim2SF_inj. rewrite mul_spec, E. reflexivity.
  - apply Prim2SF_inj. rewrite mul_spec, E. reflexivity.
  - rewrite FloatAxioms.eqb_spec, mul_spec, E. destruct s; reflexivity.
Qed.

Lemma f64_times_zero_iff (x : float) :
  (x * 0 =? 0)%float = true <-> Float64.finite x = true.
Proof.
  pose proof (f64_times_zero x) as H.
  destruct (Float64.finite x); split; intros H'; try reflexivity; try exact H; try discriminate.
  rewrite H in H'. discriminate H'.
Qed.

Lemma f64_same_refl x : Float64.same x x.
Proof. now left. Qed.

Lemma f64_same_spec (x y : float) :
  Prim2SF x = Prim2SF y \/
  (exists a b, Prim2SF x = S754_zero a /\ Prim2SF y = S754_zero b) ->
  Float64.same x y.
Proof.
  intros [H|(a & b & Ha & Hb)].
  - left. now apply Prim2SF_inj.
  - right. rewrite !FloatAxioms.eqb_spec, Ha, Hb. split; reflexivity.
Qed.

(** A zero coefficient in front of the sixth product: whatever the sign
    of the zero, the scaled sum is the same number. *)
Lemma SF_zero_coefficient (U ACC R : spec_float) (s s' : bool) :
  let v := SF64mul U (SF64add ACC (SF64mul (S754_zero s) R)) in
  let v' := SF64mul U (SF64add ACC (SF64mul (S754_zero s') R)) in
  v = v' \/ (exists a b, v = S754_zero a /\ v' = S754_zero b).
Proof.
  intros v v'. subst v v'. unfold SF64mul, SF64add.
  destruct R as [sr|sr| |sr mr er]; cbn [SFmul]; try (left; reflexivity);
    destruct ACC as [sa|sa| |sa ma ea]; cbn [SFadd]; try (left; reflexivity);
    destruct U as [su|su| |su mu eu];
    destruct s, s', sr, sa; cbn; try (left; reflexivity);
    right; eexists _, _; split; reflexivity.
Qed.

Lemma f64_dot_zero_coefficient (w w' u : float) (arr row : Float64.vec6) :
  (w =? 0)%float = true -> (w' =? 0)%float = true ->
  Float64.same (u * Float64.dot (Float64.set WinterNG w arr) row)
         (u * Float64.dot (Float64.set WinterNG w' arr) row).
Proof.
  intros Hw Hw'.
  destruct (f64_is_zero _ Hw) as [s E].
  destruct (f64_is_zero _ Hw') as [s' E'].
  apply f64_same_spec.
  destruct arr as [a0 a1 a2 a3 a4 a5], row as [r0 r1 r2 r3 r4 r5].
  unfold Float64.dot. cbn [Float64.set Float64.x0 Float64.x1 Float64.x2
                             Float64.x3 Float64.x4 Float64.x5].
  set (acc := (a0 * r0 + a1 * r1 + a2 * r2 + a3 * r3 + a4 * r4)%float).
  rewrite !(mul_spec u), !(add_spec acc), !mul_spec, E, E'.
  apply SF_zero_coefficient.
Qed.

Section Float64ReliabilityFacts.
Variables (aPercentSources : list Float64.vec6) (u : list float).

(** Coefficient arrays that give the same numbers give the same series. *)
Lemma f64_reliability_loop_same scores scores' ts :
  (forall ui row, Float64.same (ui * Float64.dot scores row)
                         (ui * Float64.dot scores' row)) ->
  forall i (arr arr' : list float),
    Forall2 Float64.same arr arr' ->
    Float64.outcome_same
      (Float64.reliability_loop aPercentSources u scores i ts arr)
      (Float64.reliability_loop aPercentSources u scores' i ts arr').
Proof.
  intros Hdot. induction ts as [|t ts IH]; intros i arr arr' Harr.
  - exact Harr.
  - cbn [Float64.reliability_loop].
    destruct (u !! i) as [ui|]; [|reflexivity].
    destruct (aPercentSources !! i) as [row|]; [|reflexivity].
    apply IH. apply Forall2_insert; [exact Harr | apply Hdot].
Qed.

(** The loop raises as soon as it passes the end of [u] or of
    [aPercentSources]. *)
Lemma f64_reliability_loop_raises scores ts : forall i (arr : list float),
  (i <= length u)%nat -> (i <= length aPercentSources)%nat ->
  (length u < i + length ts \/ length aPercentSources < i + length ts)%nat ->
  Float64.reliability_loop aPercentSources u scores i ts arr = Raise IndexError.
Proof.
  induction ts as [|t ts IH]; intros i arr Hu Hp Hshort.
  - cbn [length] in Hshort. lia.
  - cbn [Float64.reliability_loop]. rewrite length_cons in Hshort.
    destruct (u !! i) as [ui|] eqn:Eu; [|reflexivity].
    destruct (aPercentSources !! i) as [row|] eqn:Ep; [|reflexivity].
    apply lookup_lt_Some in Eu. apply lookup_lt_Some in Ep.
    apply IH; lia.
Qed.

End Float64ReliabilityFacts.

Lemma f64_get_aReliability_short aYear aPS aEnergy perc_effective dirE r
    (h : Float64.heap) :
  (length aYear < 2)%nat ->
  Float64.get_aReliability aYear aPS aEnergy perc_effective dirE r h
  = (Raise IndexError, h).
Proof.
  intros Hlen. unfold Float64.get_aReliability.
  replace (replicate (length aYear) 0%float !! 1%nat) with (@None float);
    [reflexivity|].
  symmetry. apply lookup_replicate_None. lia.
Qed.

Lemma f64_get_aReliability_long aYear aPS aEnergy perc_effective dirE r
    (h : Float64.heap) arr :
  h !! r = Some arr ->
  (2 <= length aYear)%nat ->
  Float64.get_aReliability aYear aPS aEnergy perc_effective dirE r h
  = (Float64.reliability_loop aPS
       (map (fun e => (e / Float64.Energy_2021 dirE)%float) aEnergy)
       (Float64.set WinterNG ((1 - perc_effective / 100) * 0)%float arr)
       0 aYear (replicate (length aYear) 0%float),
     alter (Float64.set WinterNG ((1 - perc_effective / 100) * 0)%float) r h).
Proof.
  intros Hr Hlen. unfold Float64.get_aReliability.
  rewrite lookup_replicate_2 by lia.
  rewrite lookup_alter_eq, Hr. reflexivity.
Qed.

Lemma f64_get_aReliability_dangling aYear aPS aEnergy perc_effective dirE r
    (h : Float64.heap) :
  h !! r = None ->
  fst (Float64.get_aReliability aYear aPS aEnergy perc_effective dirE r h)
  = Raise IndexError.
Proof.
  intros Hr. unfold Float64.get_aReliability.
  destruct (replicate (length aYear) 0%float !! 1%nat); [|reflexivity].
  rewrite lookup_alter_eq, Hr. reflexivity.
Qed.

Lemma f64_same_list_refl (l : list float) : Forall2 Float64.same l l.
Proof. induction l; constructor; [apply f64_same_refl | assumption]. Qed.

(** ** The reference run in float64 *)

(** The default parameters at the two ends of the default horizon: the
    NaturalGas entry of 2021 is the rounded slack, not the 53.6 of
    [initial_percentages]. *)
Example f64_default_trajectory_2021_2030 :
  Float64.get_aPercentSources Float64.Defaults.initial_percentages
    Float64.Defaults.derivative_sources Float64.Defaults.sec_derivative_sources
    [2021; 2030]%float
  = [Float64.Vec6 19.3 53.599999999999994 0.9 17.5 8.7 0;
     Float64.Vec6 2.2900000000000027 59.1656 1.7784 29.11 7.655999999999999 0].
Proof. vm_compute. reflexivity. Qed.

(** The six default percentages add up to 100.00000000000001. *)
Example f64_default_percentages_sum :
  Float64.vsum Float64.Defaults.initial_percentages = 100.00000000000001%float.
Proof. vm_compute. reflexivity. Qed.

(** A mix whose five clamped entries add up, rounded, to more than 100:
    the candidate of 2021 is rejected although the six numbers written
    in decimal sum to 100. *)
Example f64_rounded_slack_rejects :
  Float64.feasible (Float64.Vec6 23 0 1.8 40.6 14.9 19.7)
    Float64.vzero Float64.vzero 2021%float = false.
Proof. vm_compute. reflexivity. Qed.

(** [get_aEnergy] on two neighbouring samples of the default grid: the
    difference of the two entries is not the slope times the difference
    of the years. *)
Example f64_energy_difference_is_rounded :
  Float64.get_aEnergy [2021; 2021.009009009009]%float Float64.Defaults.dirE
  = [485320000; 485382342.3423424]%float /\
  (485382342.3423424 - 485320000 =? 6.92e6 * (2021.009009009009 - 2021))%float
  = false.
Proof. split; vm_compute; reflexivity. Qed.

(* ================================================================== *)
(** * The claims of the specification *)
(* ================================================================== *)

(** Closes a goal on concrete numbers by evaluation. *)
Ltac by_evaluation :=
  vm_compute; repeat split; solve [reflexivity | discriminate | congruence].

(** ** Source-mix trajectory *)

(** C1, as the program has it.  For every time grid and every
    [initial_percentages] with six nonnegative entries (and any two trend
    vectors), every row of the trajectory [get_aPercentSources] returns
    has its six channels nonnegative, and the row is either a copy of
    [initial_percentages] or has in its NaturalGas entry the float64
    value of [100 - (Coal + Solar + Wind + Nuclear + WinterNG)] of its
    own entries, each operation rounded.  Infinite and NaN entries of
    the grid and of the trend vectors are covered: a candidate with a NaN
    fails the test [NG >= 0] and is not written. *)
Theorem trajectory_rows_nonneg_slack_rounded
    (initial_percentages derivative_sources sec_derivative_sources : Float64.vec6)
    (aYear : list float) :
  Float64.nonneg initial_percentages ->
  forall i row,
    Float64.get_aPercentSources initial_percentages derivative_sources
      sec_derivative_sources aYear !! i = Some row ->
    Float64.nonneg row /\
    (row = initial_percentages \/
     Float64.get NaturalGas row = Float64.slack row).
Proof.
  intros Hinit i row Hrow.
  eapply (Forall_lookup_1 _ _ _ _
            (f64_rows_invariant initial_percentages derivative_sources
               sec_derivative_sources
               (fun r => Float64.nonneg r /\
                         (r = initial_percentages \/
                          Float64.get NaturalGas r = Float64.slack r))
               _ _ aYear)).
  exact Hrow.
  Unshelve.
  - split; [exact Hinit | now left].
  - intros t F. split; [now apply f64_accepted_nonneg|].
    right. apply f64_accepted_slack.
Qed.

Lemma trajectory_rows_nonneg_slack_rounded_witness :
  let aYear := [2021; 2025; 2030; 2040]%float in
  let sec := Float64.Vec6 (-0.5) 0 1 (-0.001) (-1) 0.1 in
  Float64.nonneg Float64.Defaults.initial_percentages /\
  forall i row,
    Float64.get_aPercentSources Float64.Defaults.initial_percentages
      Float64.Defaults.derivative_sources sec aYear !! i = Some row ->
    Float64.nonneg row /\
    (row = Float64.Defaults.initial_percentages \/
     Float64.get NaturalGas row = Float64.slack row).
Proof.
  intros aYear sec.
  assert (H : Float64.nonneg Float64.Defaults.initial_percentages)
    by (intros c; destruct c; reflexivity).
  split; [exact H|].
  apply (trajectory_rows_nonneg_slack_rounded _ _ _ _ H).
Defined.

(** C1 as stated fails.  [initial_percentages = [25, 25, 12.5, 12.5,
    12.5, 12.5]] is nonnegative and sums to 100, as floats and as
    numbers.  With the default first derivatives and no second
    derivative the row of the year 2022 is
    [[23.11, 25.618400000000008, 12.5976, 13.79, 12.384, 12.5]]: its
    entries, added as floats, give 100.00000000000001, and the six
    numbers they stand for do not add up to 100 either. *)
Lemma trajectory_row_sum_misses_100 :
  let init := Float64.Vec6 25 25 12.5 12.5 12.5 12.5 in
  let row := Float64.Vec6 23.11 25.618400000000008 12.5976 13.79 12.384 12.5 in
  Float64.nonneg init /\
  Float64.vsum init = 100%float /\
  (exists q, Float64.vsum_exact init = Some q /\ q == 100) /\
  Float64.get_aPercentSources init Float64.Defaults.derivative_sources
    Float64.vzero [2022%float] = [row] /\
  Float64.vsum row = 100.00000000000001%float /\
  (Float64.vsum row =? 100)%float = false /\
  (exists q, Float64.vsum_exact row = Some q /\ ~ q == 100).
Proof.
  intros init row.
  split; [intros c; destruct c; reflexivity|].
  split; [reflexivity|].
  split; [eexists; split; [vm_compute; reflexivity | by_evaluation]|].
  split; [vm_compute; reflexivity|].
  split; [vm_compute; reflexivity|].
  split; [vm_compute; reflexivity|].
  eexists; split; [vm_compute; reflexivity | by_evaluation].
Qed.

(** C2.  At every sample [t] of any time grid the candidate row is
    [second_derivative * 0.5 * (t - 2021)^2 + first_derivative * (t - 2021)
     + initial_percentages], channel by channel, with the year 2021 fixed
    whatever the grid starts at; channels 0, 2, 3, 4, 5 that are negative
    are set to 0 and channel 1 is left as it is; the slack is 100 minus
    the sum of the five clamped channels; the row written is the clamped
    candidate with the slack in channel 1 when the slack is [>= 0]; when
    the slack is negative the candidate is rejected and the row is the
    previous row, or [initial_percentages] at index 0. *)
Theorem candidate_row_clamp_and_slack
    (initial_percentages derivative_sources sec_derivative_sources : vec6)
    (aYear : list Q) (i : nat) (t : Q) :
  aYear !! i = Some t ->
  let trajectory :=
    get_aPercentSources initial_percentages derivative_sources
      sec_derivative_sources aYear in
  let P := candidate initial_percentages derivative_sources sec_derivative_sources t in
  let P' := clamp P in
  let NG := slack P' in
  (forall c, get c P ==
             get c sec_derivative_sources * 0.5 * (t - 2021) ^ 2
             + get c derivative_sources * (t - 2021)
             + get c initial_percentages) /\
  (forall c, clamped c -> get c P' = if Qltb (get c P) 0 then 0 else get c P) /\
  get NaturalGas P' = get NaturalGas P /\
  NG = 100 - (get Coal P' + get Solar P' + get Wind P' + get Nuclear P'
              + get WinterNG P') /\
  (0 <= NG -> trajectory !! i = Some (set NaturalGas NG P')) /\
  (NG < 0 ->
   match i with
   | O => trajectory !! i = Some initial_percentages
   | S j => exists previous,
              trajectory !! j = Some previous /\ trajectory !! i = Some previous
   end).
Proof.
  intros Hi trajectory P P' NG. repeat split.
  - intros c. unfold P. rewrite candidate_get. ring.
  - intros c Hc. now apply clamp_get.
  - apply clamp_get_slack.
  - intros Hng. apply row_accepted; [exact Hi | now apply feasible_true].
  - intros Hng. apply feasible_false in Hng. unfold trajectory.
    destruct i as [|j].
    + now rewrite (row_frozen _ _ _ _ _ _ Hi Hng).
    + now apply (row_frozen_S _ _ _ _ _ t).
Qed.

Lemma candidate_row_clamp_and_slack_witness :
  let aYear := [2025; 2030] in
  let P' := clamp (candidate Defaults.initial_percentages
                     Defaults.derivative_sources Defaults.sec_derivative_sources 2025) in
  aYear !! 0%nat = Some 2025 /\
  get_aPercentSources Defaults.initial_percentages Defaults.derivative_sources
    Defaults.sec_derivative_sources aYear !! 0%nat
  = Some (set NaturalGas (slack P') P') /\
  get Coal (set NaturalGas (slack P') P') == 19.3 - 1.89 * (2025 - 2021).
Proof.
  intros aYear P'.
  assert (H : aYear !! 0%nat = Some 2025) by reflexivity.
  split; [exact H|].
  split; [|by_evaluation].
  apply (candidate_row_clamp_and_slack _ _ _ _ _ _ H).
  by_evaluation.
Defined.

(** C3.  At a sample index [k] whose slack is negative: the row at [k]
    equals the row at [k-1] when [k > 0], and equals
    [initial_percentages] when [k = 0]; the row is carried to every later
    index [m] as long as the samples between [k] and [m] are infeasible
    too; and any sample whose own slack is nonnegative gets its own
    accepted row, whatever happened before it. *)
Theorem freeze_on_negative_slack
    (initial_percentages derivative_sources sec_derivative_sources : vec6)
    (aYear : list Q) (k : nat) (t : Q) :
  let trajectory :=
    get_aPercentSources initial_percentages derivative_sources
      sec_derivative_sources aYear in
  let NG := fun t =>
    slack (clamp (candidate initial_percentages derivative_sources
                    sec_derivative_sources t)) in
  aYear !! k = Some t ->
  NG t < 0 ->
  (k = 0%nat -> trajectory !! k = Some initial_percentages) /\
  ((0 < k)%nat ->
   exists r, trajectory !! (k - 1)%nat = Some r /\ trajectory !! k = Some r) /\
  (forall m, (k <= m < length aYear)%nat ->
     (forall j tj, (k < j <= m)%nat -> aYear !! j = Some tj -> NG tj < 0) ->
     trajectory !! m = trajectory !! k) /\
  (forall m tm, aYear !! m = Some tm -> 0 <= NG tm ->
     trajectory !! m
     = Some (set NaturalGas (NG tm)
               (clamp (candidate initial_percentages derivative_sources
                         sec_derivative_sources tm)))).
Proof.
  intros trajectory NG Hk Hneg.
  assert (F : feasible initial_percentages derivative_sources
                sec_derivative_sources t = false) by now apply feasible_false.
  repeat split.
  - intros ->. unfold trajectory. now rewrite (row_frozen _ _ _ _ _ _ Hk F).
  - intros Hpos. destruct k as [|k]; [lia|].
    replace (S k - 1)%nat with k by lia.
    now apply (row_frozen_S _ _ _ _ _ t).
  - intros m Hm Hrun.
    replace m with (k + (m - k))%nat by lia.
    apply row_frozen_run; [lia|].
    intros j tj Hj Htj. apply feasible_false.
    apply (Hrun j tj); [lia | exact Htj].
  - intros m tm Hm Hpos. apply row_accepted; [exact Hm | now apply feasible_true].
Qed.

Lemma freeze_on_negative_slack_witness :
  let d1 := Vec6 0 0 80 0 0 0 in
  let d2 := Vec6 0 0 (-40) 0 0 0 in
  let aYear := [2021; 2022; 2023; 2024; 2025] in
  let trajectory := get_aPercentSources Defaults.initial_percentages d1 d2 aYear in
  aYear !! 1%nat = Some 2022 /\
  slack (clamp (candidate Defaults.initial_percentages d1 d2 2022)) < 0 /\
  (exists r, trajectory !! 0%nat = Some r /\ trajectory !! 1%nat = Some r) /\
  trajectory !! 3%nat = trajectory !! 1%nat.
Proof.
  intros d1 d2 aYear trajectory.
  assert (H1 : aYear !! 1%nat = Some 2022) by reflexivity.
  assert (H2 : slack (clamp (candidate Defaults.initial_percentages d1 d2 2022)) < 0)
    by by_evaluation.
  destruct (freeze_on_negative_slack Defaults.initial_percentages d1 d2 aYear
              1 2022 H1 H2) as (_ & Hprev & Hrun & _).
  split; [exact H1 | split; [exact H2 | split]].
  - apply Hprev. lia.
  - apply (Hrun 3%nat); [simpl; lia|].
    intros j tj Hj Htj.
    destruct j as [|[|[|[|j]]]]; try lia; injection Htj as <-; by_evaluation.
Defined.

(** C9.  The NaturalGas entry (index 1) of the first-derivative vector
    is ignored: whatever two values [x] and [y] it takes, all other
    inputs being the same, [get_aPercentSources] returns the same
    trajectory. *)
Theorem natural_gas_derivative_is_ignored
    (initial_percentages derivative_sources sec_derivative_sources : vec6)
    (aYear : list Q) (x y : Q) :
  get_aPercentSources initial_percentages (set NaturalGas x derivative_sources)
    sec_derivative_sources aYear
  = get_aPercentSources initial_percentages (set NaturalGas y derivative_sources)
      sec_derivative_sources aYear.
Proof.
  set (dx := set NaturalGas x derivative_sources).
  set (dy := set NaturalGas y derivative_sources).
  assert (Hclamp : forall c t, clamped c ->
            get c (clamp (candidate initial_percentages dx sec_derivative_sources t))
            = get c (clamp (candidate initial_percentages dy sec_derivative_sources t))).
  { intros c t Hc. rewrite !clamp_get, !candidate_get by assumption.
    unfold dx, dy. rewrite !get_set_ne by (unfold clamped in Hc; congruence).
    reflexivity. }
  assert (Hslack : forall t,
            slack (clamp (candidate initial_percentages dx sec_derivative_sources t))
            = slack (clamp (candidate initial_percentages dy sec_derivative_sources t))).
  { intros t. unfold slack. now rewrite !Hclamp by discriminate. }
  assert (Hnext : forall prev t,
            next_row initial_percentages dx sec_derivative_sources prev t
            = next_row initial_percentages dy sec_derivative_sources prev t).
  { intros prev t. unfold next_row, feasible, accepted. rewrite Hslack.
    destruct (Qgeb _ 0); [|reflexivity].
    apply vec6_ext. intros c.
    destruct (decide (c = NaturalGas)) as [->|Hc].
    - now rewrite !get_set_eq.
    - rewrite !get_set_ne by congruence. now apply Hclamp. }
  rewrite !get_aPercentSources_rows.
  generalize (@None vec6).
  induction aYear as [|t ts IH]; intros prev; [reflexivity|].
  rewrite !rows_from_cons, Hnext. f_equal. apply IH.
Qed.

(** C5, as the program has it.  If both trend vectors are all zero
    ([0.0] or [-0.0] at every index) and [initial_percentages] is
    nonnegative in channels 0, 2, 3, 4, 5, then every row of the
    trajectory equals [initial_percentages] in channels 0, 2, 3, 4 and 5
    (the program's [==]), for every time grid; the row is either a copy
    of [initial_percentages] or has in its NaturalGas entry the float64
    value of [100 - (Coal + Solar + Wind + Nuclear + WinterNG)] of its
    own entries. *)
Theorem zero_trend_rows_keep_clamped_channels
    (initial_percentages derivative_sources sec_derivative_sources : Float64.vec6)
    (aYear : list float) :
  Float64.all_zero derivative_sources ->
  Float64.all_zero sec_derivative_sources ->
  (forall c, clamped c -> (0 <=? Float64.get c initial_percentages)%float = true) ->
  forall i row,
    Float64.get_aPercentSources initial_percentages derivative_sources
      sec_derivative_sources aYear !! i = Some row ->
    (forall c, clamped c ->
       (Float64.get c row =? Float64.get c initial_percentages)%float = true) /\
    (row = initial_percentages \/
     Float64.get NaturalGas row = Float64.slack row).
Proof.
  intros Hd1 Hd2 Hinit i row Hrow.
  eapply (Forall_lookup_1 _ _ _ _
            (f64_rows_invariant initial_percentages derivative_sources
               sec_derivative_sources
               (fun r => (forall c, clamped c ->
                            (Float64.get c r =? Float64.get c initial_percentages)%float
                            = true) /\
                         (r = initial_percentages \/
                          Float64.get NaturalGas r = Float64.slack r))
               _ _ aYear)).
  exact Hrow.
  Unshelve.
  - split; [|now left].
    intros c Hc. apply f64_eqb_refl, f64_nonneg_number. now apply Hinit.
  - intros t F. split; [|right; apply f64_accepted_slack].
    intros c Hc. unfold Float64.accepted.
    rewrite f64_get_set_ne by (unfold clamped in Hc; congruence).
    pose proof (f64_slack_numbers _ c F Hc) as Hn.
    rewrite f64_clamp_get in * by exact Hc.
    assert (Hnum : Prim2SF (Float64.get c
                     (Float64.candidate initial_percentages derivative_sources
                        sec_derivative_sources t)) <> S754_nan).
    { destruct (Float64.get c _ <? 0)%float eqn:E; [|exact Hn].
      now apply f64_negative_number. }
    rewrite f64_candidate_get in *.
    destruct (f64_zero_trend _ _ _ _ _ (Hd2 c) (Hd1 c) (Hinit c Hc) Hnum)
      as [Hlt Heq].
    now rewrite Hlt.
Qed.

Lemma zero_trend_rows_keep_clamped_channels_witness :
  let aYear := [2021; 2025; 2030]%float in
  Float64.all_zero Float64.vzero /\
  (forall c, clamped c ->
     (0 <=? Float64.get c Float64.Defaults.initial_percentages)%float = true) /\
  forall i row,
    Float64.get_aPercentSources Float64.Defaults.initial_percentages
      Float64.vzero Float64.vzero aYear !! i = Some row ->
    (forall c, clamped c ->
       (Float64.get c row =? Float64.get c Float64.Defaults.initial_percentages)%float
       = true) /\
    (row = Float64.Defaults.initial_percentages \/
     Float64.get NaturalGas row = Float64.slack row).
Proof.
  intros aYear.
  assert (H0 : Float64.all_zero Float64.vzero) by (intros c; destruct c; reflexivity).
  assert (H1 : forall c, clamped c ->
            (0 <=? Float64.get c Float64.Defaults.initial_percentages)%float = true)
    by (intros c _; destruct c; reflexivity).
  split; [exact H0 | split; [exact H1|]].
  apply (zero_trend_rows_keep_clamped_channels _ _ _ _ H0 H0 H1).
Defined.

(** C5 as stated fails.  With all-zero trends and the module's
    [initial_percentages = [19.3, 53.6, 0.9, 17.5, 8.7, 0]] the row of
    2021 has 53.599999999999994 in the NaturalGas entry, the rounded
    slack, where [initial_percentages] has 53.6.  With
    [initial_percentages = [-5, 105, 0, 0, 0, 0]] the negative Coal entry
    is clamped and the row is [[0, 100, 0, 0, 0, 0]]. *)
Lemma zero_trend_row_differs_from_initial :
  let init := Float64.Defaults.initial_percentages in
  let low := Float64.Vec6 (-5) 105 0 0 0 0 in
  Float64.get_aPercentSources init Float64.vzero Float64.vzero [2021%float]
  = [Float64.Vec6 19.3 53.599999999999994 0.9 17.5 8.7 0] /\
  Float64.get NaturalGas init = 53.6%float /\
  (53.599999999999994 =? 53.6)%float = false /\
  Float64.get_aPercentSources low Float64.vzero Float64.vzero [2021%float]
  = [Float64.Vec6 0 100 0 0 0 0].
Proof. intros init low. repeat split; vm_compute; reflexivity. Qed.

(** ** Declining channels *)

(** From the reference year on, a trend with nonpositive first and
    second derivative does not increase. *)
Lemma trend_decreasing (s d p a b : Q) :
  s <= 0 -> d <= 0 -> 2021 <= a -> a <= b ->
  s * (0.5 * (b - 2021) ^ 2) + d * (b - 2021) + p
  <= s * (0.5 * (a - 2021) ^ 2) + d * (a - 2021) + p.
Proof.
  intros Hs Hd Ha Hab.
  assert (H1 : 0 <= (b - a) * ((b - 2021) + (a - 2021)))
    by (apply Qmult_le_0_compat; lra).
  assert (H2 : 0 <= (- s) * ((b - a) * ((b - 2021) + (a - 2021))))
    by (apply Qmult_le_0_compat; lra).
  assert (H3 : 0 <= (- d) * (b - a)) by (apply Qmult_le_0_compat; lra).
  nra.
Qed.

(** Clamping at zero keeps the order. *)
Lemma clamp_value_monotone (x y : Q) :
  x <= y ->
  (if Qltb x 0 then 0 else x) <= (if Qltb y 0 then 0 else y).
Proof.
  intros Hxy.
  destruct (Qltb x 0) eqn:Ex, (Qltb y 0) eqn:Ey;
    rewrite ?Qltb_true, ?Qltb_false in *; lra.
Qed.

(** C6, as the program has it.  For a channel among Coal, Solar, Wind,
    Nuclear, WinterNaturalGas whose first and second derivative are both
    negative and whose initial percentage is positive, on a time grid in
    increasing order with no sample before the reference year 2021 and no
    freeze at any sample: the channel's value never increases along the
    trajectory, it is never negative, and once it is zero it is zero at
    every later sample. *)
Theorem declining_channel_is_monotone_from_2021
    (initial_percentages derivative_sources sec_derivative_sources : vec6)
    (aYear : list Q) (c : source) :
  let trajectory :=
    get_aPercentSources initial_percentages derivative_sources
      sec_derivative_sources aYear in
  clamped c ->
  get c derivative_sources < 0 ->
  get c sec_derivative_sources < 0 ->
  0 < get c initial_percentages ->
  increasing aYear ->
  (forall k t, aYear !! k = Some t -> 2021 <= t) ->
  (forall k t, aYear !! k = Some t ->
     0 <= slack (clamp (candidate initial_percentages derivative_sources
                          sec_derivative_sources t))) ->
  forall i j ri rj, (i <= j)%nat ->
    trajectory !! i = Some ri -> trajectory !! j = Some rj ->
    get c rj <= get c ri /\ 0 <= get c rj /\ (get c ri == 0 -> get c rj == 0).
Proof.
  intros trajectory Hc Hd Hs Hp Hinc Hyear Hfree i j ri rj Hij Hi Hj.
  destruct (row_has_sample _ _ _ _ _ _ Hi) as [ti Hti].
  destruct (row_has_sample _ _ _ _ _ _ Hj) as [tj Htj].
  unfold trajectory in Hi, Hj.
  rewrite (row_accepted _ _ _ _ _ _ Hti) in Hi
    by (apply feasible_true; now apply (Hfree i)).
  rewrite (row_accepted _ _ _ _ _ _ Htj) in Hj
    by (apply feasible_true; now apply (Hfree j)).
  injection Hi as <-. injection Hj as <-.
  rewrite !accepted_get_clamped by assumption.
  assert (Hle : get c (clamp (candidate initial_percentages derivative_sources
                                sec_derivative_sources tj))
                <= get c (clamp (candidate initial_percentages derivative_sources
                                   sec_derivative_sources ti))).
  { rewrite !clamp_get by assumption. apply clamp_value_monotone.
    rewrite !candidate_get.
    apply trend_decreasing;
      [lra | lra | now apply (Hyear i) | now apply (Hinc i j)]. }
  assert (H0 : 0 <= get c (clamp (candidate initial_percentages derivative_sources
                                    sec_derivative_sources tj)))
    by now apply clamp_nonneg.
  repeat split; [exact Hle | exact H0 | intros Hz; lra].
Qed.

Lemma declining_channel_is_monotone_from_2021_witness :
  let d2 := Vec6 (-0.5) 0 1 (-0.001) (-1) 0.1 in
  let aYear := [2021; 2025; 2030] in
  let trajectory :=
    get_aPercentSources Defaults.initial_percentages Defaults.derivative_sources
      d2 aYear in
  clamped Coal /\
  get Coal Defaults.derivative_sources < 0 /\
  get Coal d2 < 0 /\
  0 < get Coal Defaults.initial_percentages /\
  increasing aYear /\
  (forall k t, aYear !! k = Some t -> 2021 <= t) /\
  (forall k t, aYear !! k = Some t ->
     0 <= slack (clamp (candidate Defaults.initial_percentages
                          Defaults.derivative_sources d2 t))) /\
  forall i j ri rj, (i <= j)%nat ->
    trajectory !! i = Some ri -> trajectory !! j = Some rj ->
    get Coal rj <= get Coal ri /\ 0 <= get Coal rj /\
    (get Coal ri == 0 -> get Coal rj == 0).
Proof.
  intros d2 aYear trajectory.
  assert (H1 : clamped Coal) by discriminate.
  assert (H2 : get Coal Defaults.derivative_sources < 0) by by_evaluation.
  assert (H3 : get Coal d2 < 0) by by_evaluation.
  assert (H4 : 0 < get Coal Defaults.initial_percentages) by by_evaluation.
  assert (H5 : increasing aYear).
  { intros i j ti tj Hij Hi Hj.
    destruct i as [|[|[|i]]]; try discriminate Hi;
      destruct j as [|[|[|j]]]; try discriminate Hj; try lia;
      injection Hi as <-; injection Hj as <-; by_evaluation. }
  assert (H6 : forall k t, aYear !! k = Some t -> 2021 <= t).
  { intros k t Hk.
    destruct k as [|[|[|k]]]; try discriminate Hk;
      injection Hk as <-; by_evaluation. }
  assert (H7 : forall k t, aYear !! k = Some t ->
            0 <= slack (clamp (candidate Defaults.initial_percentages
                                 Defaults.derivative_sources d2 t))).
  { intros k t Hk.
    destruct k as [|[|[|k]]]; try discriminate Hk;
      injection Hk as <-; by_evaluation. }
  repeat (split; [assumption|]).
  apply (declining_channel_is_monotone_from_2021 _ _ _ _ _ H1 H2 H3 H4 H5 H6 H7).
Defined.

(** C6 as stated fails on a grid that starts before 2021.  With
    [initial_percentages = [10, 90, 0, 0, 0, 0]], first and second
    derivative [-1] for Coal and the grid [2018, 2019], no sample
    freezes, and Coal goes from 8.5 up to 10. *)
Lemma declining_channel_rises_before_2021 :
  let init := Vec6 10 90 0 0 0 0 in
  let d := Vec6 (-1) 0 0 0 0 0 in
  let aYear := [2018; 2019] in
  let trajectory := get_aPercentSources init d d aYear in
  clamped Coal /\ get Coal d < 0 /\ 0 < get Coal init /\
  increasing aYear /\
  (forall k t, aYear !! k = Some t -> 0 <= slack (clamp (candidate init d d t))) /\
  exists r0 r1,
    trajectory !! 0%nat = Some r0 /\ trajectory !! 1%nat = Some r1 /\
    get Coal r0 == 8.5 /\ get Coal r1 == 10 /\ ~ get Coal r1 <= get Coal r0.
Proof.
  intros init d aYear trajectory.
  split; [discriminate|].
  split; [by_evaluation|].
  split; [by_evaluation|].
  split.
  { intros i j ti tj Hij Hi Hj.
    destruct i as [|[|i]]; try discriminate Hi;
      destruct j as [|[|j]]; try discriminate Hj; try lia;
      injection Hi as <-; injection Hj as <-; by_evaluation. }
  split.
  { intros k t Hk.
    destruct k as [|[|k]]; try discriminate Hk;
      injection Hk as <-; by_evaluation. }
  eexists _, _.
  split; [vm_compute; reflexivity|].
  split; [vm_compute; reflexivity|].
  split; [by_evaluation|].
  split; [by_evaluation|].
  vm_compute. intros H. apply H. reflexivity.
Qed.

(* ================================================================== *)
(** * Reliability *)
(* ================================================================== *)

Section ReliabilityFacts.
Variables (aPercentSources : list vec6) (u : list Q).

(** The loop returns when [u] and [aPercentSources] cover the grid, and
    it writes [u[k] * dot(scores, row k)] at every index it visits. *)
Lemma reliability_loop_returns scores ts : forall i (arr : list Q),
  length arr = (i + length ts)%nat ->
  (i + length ts <= length u)%nat ->
  (i + length ts <= length aPercentSources)%nat ->
  exists res,
    reliability_loop aPercentSources u scores i ts arr = Return res /\
    length res = length arr /\
    (forall k, (k < i)%nat -> res !! k = arr !! k) /\
    (forall k uk row, (i <= k < i + length ts)%nat ->
       u !! k = Some uk -> aPercentSources !! k = Some row ->
       res !! k = Some (uk * dot scores row)).
Proof.
  induction ts as [|t ts IH]; intros i arr Harr Hu Hp.
  - exists arr. cbn [reliability_loop length] in *.
    repeat split; intros; lia.
  - cbn [reliability_loop]. rewrite length_cons in *.
    destruct (lookup_lt_is_Some_2 u i ltac:(lia)) as [ui Hui].
    destruct (lookup_lt_is_Some_2 aPercentSources i ltac:(lia)) as [row Hrow].
    rewrite Hui, Hrow.
    destruct (IH (S i) (<[i := ui * dot scores row]> arr))
      as (res & Hres & Hlen & Hlow & Hhigh);
      rewrite ?length_insert; try lia.
    exists res. rewrite length_insert in Hlen.
    repeat split; [exact Hres | exact Hlen | |].
    + intros k Hk. rewrite Hlow by lia.
      apply list_lookup_insert_ne. lia.
    + intros k uk row' Hk Huk Hrow'.
      destruct (decide (k = i)) as [->|Hne].
      * rewrite Hlow by lia.
        rewrite list_lookup_insert_eq by lia.
        congruence.
      * apply Hhigh; [lia | assumption | assumption].
Qed.

End ReliabilityFacts.

(** The derived coefficient is zero whatever [perc_effective] is. *)
Lemma winter_coefficient_zero (perc_effective : Q) :
  (1 - perc_effective / 100) * 0 == 0.
Proof. ring. Qed.


(** A grid of fewer than two samples: [aReliability[1]] is out of range,
    the call raises before it writes anything. *)
Lemma get_aReliability_short aYear aPS aEnergy perc_effective dirE r (h : heap) :
  (length aYear < 2)%nat ->
  get_aReliability aYear aPS aEnergy perc_effective dirE r h = (Raise IndexError, h).
Proof.
  intros Hlen. unfold get_aReliability.
  replace (replicate (length aYear) 0 !! 1%nat) with (@None Q); [reflexivity|].
  symmetry. apply lookup_replicate_None. lia.
Qed.

(** A grid of at least two samples: the coefficient is written, then the
    loop runs with the written array. *)
Lemma get_aReliability_long aYear aPS aEnergy perc_effective dirE r (h : heap) arr :
  h !! r = Some arr ->
  (2 <= length aYear)%nat ->
  get_aReliability aYear aPS aEnergy perc_effective dirE r h
  = (reliability_loop aPS (map (fun e => e / Energy_2021 dirE) aEnergy)
       (set WinterNG ((1 - perc_effective / 100) * 0) arr)
       0 aYear (replicate (length aYear) 0),
     alter (set WinterNG ((1 - perc_effective / 100) * 0)) r h).
Proof.
  intros Hr Hlen. unfold get_aReliability.
  rewrite lookup_replicate_2 by lia.
  rewrite lookup_alter_eq, Hr. reflexivity.
Qed.

(** C4.  In the default configuration ([perc_effective] 83.5, [dirE]
    6.92e6, the module-level [aRelScores]) and on a grid of at least two
    samples covered by the energy series and the trajectory,
    [get_aReliability] first writes [(1 - 83.5/100) * aReliability[1]]
    into the WinterNaturalGas coefficient, where [aReliability] is the
    fresh array of zeros, so the coefficient is 0; it then returns
    [reliability[i] = (aEnergy[i] / E2021) * dot(aRelScores, trajectory[i])]
    at every sample, where [E2021 = 6.92e6 * 2021 - 1.35e10] is the energy
    formula at 2021 and does not depend on [aEnergy]. *)
Theorem reliability_in_default_configuration
    (aYear : list Q) (aPercentSources : list vec6) (aEnergy : list Q) :
  (2 <= length aYear)%nat ->
  (length aYear <= length aPercentSources)%nat ->
  (length aYear <= length aEnergy)%nat ->
  let E2021 := 6.92e6 * 2021 - 1.35e10 in
  let zeros := replicate (length aYear) (0 : Q) in
  let coefficient := (1 - 83.5 / 100) * 0 in
  let scores := set WinterNG coefficient Defaults.aRelScores in
  zeros !! 1%nat = Some 0 /\
  coefficient == 0 /\
  get_aEnergy [2021] Defaults.dirE = [E2021] /\
  exists reliability h',
    get_aReliability_default aYear aPercentSources aEnergy module_heap
    = (Return reliability, h') /\
    h' !! aRelScores_ref = Some scores /\
    length reliability = length aYear /\
    forall i e row, (i < length aYear)%nat ->
      aEnergy !! i = Some e -> aPercentSources !! i = Some row ->
      reliability !! i = Some ((e / E2021) * dot scores row).
Proof.
  intros Hlen Hps Hen E2021 zeros coefficient scores.
  split; [apply lookup_replicate_2; lia|].
  split; [apply winter_coefficient_zero|].
  split; [reflexivity|].
  unfold get_aReliability_default.
  rewrite (get_aReliability_long _ _ _ _ _ _ _ Defaults.aRelScores)
    by (reflexivity || exact Hlen).
  destruct (reliability_loop_returns aPercentSources
              (map (fun e => e / Energy_2021 Defaults.dirE) aEnergy)
              scores aYear 0 zeros)
    as (res & Hres & Hl & _ & Hval).
  { unfold zeros. rewrite length_replicate. lia. }
  { rewrite length_map. lia. }
  { lia. }
  exists res, (alter (set WinterNG coefficient) aRelScores_ref module_heap).
  split.
  { change Defaults.perc_effective with 83.5.
    fold coefficient scores zeros. now rewrite Hres. }
  split; [reflexivity|].
  split; [rewrite Hl; apply length_replicate|].
  intros i e row Hi He Hrow.
  apply Hval; [lia | | exact Hrow].
  change (map (fun e0 => e0 / Energy_2021 Defaults.dirE) aEnergy)
    with ((fun e0 => e0 / Energy_2021 Defaults.dirE) <$> aEnergy).
  rewrite list_lookup_fmap, He. reflexivity.
Qed.

Lemma reliability_in_default_configuration_witness :
  let aYear := [2021; 2030] in
  let aPercentSources :=
    get_aPercentSources Defaults.initial_percentages Defaults.derivative_sources
      Defaults.sec_derivative_sources aYear in
  let aEnergy := get_aEnergy aYear Defaults.dirE in
  (2 <= length aYear)%nat /\
  (length aYear <= length aPercentSources)%nat /\
  (length aYear <= length aEnergy)%nat /\
  exists reliability h',
    get_aReliability_default aYear aPercentSources aEnergy module_heap
    = (Return reliability, h') /\
    length reliability = length aYear.
Proof.
  intros aYear aPercentSources aEnergy.
  assert (H1 : (2 <= length aYear)%nat) by (vm_compute; lia).
  assert (H2 : (length aYear <= length aPercentSources)%nat) by (vm_compute; lia).
  assert (H3 : (length aYear <= length aEnergy)%nat) by (vm_compute; lia).
  destruct (reliability_in_default_configuration aYear aPercentSources aEnergy
              H1 H2 H3) as (_ & _ & _ & rel & h' & Hcall & _ & Hl & _).
  repeat (split; [assumption|]).
  exists rel, h'. split; assumption.
Defined.

(** C8, as the program has it.  On a grid of at least two samples
    [get_aReliability] writes into the coefficient array it is given (the
    module-level default when the argument is left out): in the store it
    leaves, index 5 of that array holds [(1 - perc_effective/100) * 0.0],
    which equals 0 when [1 - perc_effective/100] is finite and is NaN
    when it is not; indices 0 to 4 are as before, every other array is
    untouched, and this holds whether or not the call goes on to raise.
    The write is seen by what runs next: a later call through the same
    reference starts from the written array. *)
Theorem reliability_writes_coefficient_in_place
    (aYear : list float) (aPercentSources : list Float64.vec6)
    (aEnergy : list float) (perc_effective dirE : float)
    (aRelScores : ref) (h : Float64.heap) (before : Float64.vec6) :
  h !! aRelScores = Some before ->
  (2 <= length aYear)%nat ->
  let written := ((1 - perc_effective / 100) * 0)%float in
  let h' := snd (Float64.get_aReliability aYear aPercentSources aEnergy
                   perc_effective dirE aRelScores h) in
  exists after,
    h' !! aRelScores = Some after /\
    Float64.get WinterNG after = written /\
    (if Float64.finite (1 - perc_effective / 100)
     then (written =? 0)%float = true else written = nan) /\
    (forall c, c <> WinterNG -> Float64.get c after = Float64.get c before) /\
    (forall r, r <> aRelScores -> h' !! r = h !! r) /\
    forall aYear2 aPercentSources2 aEnergy2 perc_effective2 dirE2,
      (2 <= length aYear2)%nat ->
      fst (Float64.get_aReliability aYear2 aPercentSources2 aEnergy2
             perc_effective2 dirE2 aRelScores h')
      = Float64.reliability_loop aPercentSources2
          (map (fun e => (e / Float64.Energy_2021 dirE2)%float) aEnergy2)
          (Float64.set WinterNG ((1 - perc_effective2 / 100) * 0)%float after)
          0 aYear2 (replicate (length aYear2) 0%float).
Proof.
  intros Hbefore Hlen written h'. unfold h'.
  rewrite (f64_get_aReliability_long _ _ _ _ _ _ _ _ Hbefore Hlen).
  cbn [snd]. fold written.
  exists (Float64.set WinterNG written before).
  assert (Hafter : alter (Float64.set WinterNG written) aRelScores h !! aRelScores
                   = Some (Float64.set WinterNG written before))
    by now rewrite lookup_alter_eq, Hbefore.
  split; [exact Hafter|].
  split; [apply f64_get_set_eq|].
  split; [apply f64_times_zero|].
  split; [intros c Hc; apply f64_get_set_ne; congruence|].
  split; [intros r Hr; apply lookup_alter_ne; congruence|].
  intros aYear2 aPS2 aEnergy2 pe2 dirE2 Hlen2.
  now rewrite (f64_get_aReliability_long _ _ _ _ _ _ _ _ Hafter Hlen2).
Qed.

(** A caller's array with 7 at index 5, next to the module-level array,
    and the default [perc_effective]: after the call the array has 0 at
    index 5, its other entries are as before, and the module-level array
    is untouched. *)
Lemma reliability_writes_coefficient_in_place_witness :
  let scores := Float64.Vec6 1 2 3 4 5 7 in
  let r : ref := 1%nat in
  let h : Float64.heap := <[r := scores]> Float64.module_heap in
  let aYear := [2021; 2030]%float in
  let aPercentSources := [Float64.Defaults.initial_percentages;
                          Float64.Defaults.initial_percentages] in
  let aEnergy := Float64.get_aEnergy aYear Float64.Defaults.dirE in
  let h' := snd (Float64.get_aReliability aYear aPercentSources aEnergy
                   Float64.Defaults.perc_effective Float64.Defaults.dirE r h) in
  h !! r = Some scores /\
  (2 <= length aYear)%nat /\
  (Float64.get WinterNG scores =? 0)%float = false /\
  h' !! aRelScores_ref = Some Float64.Defaults.aRelScores /\
  exists after,
    h' !! r = Some after /\
    (Float64.get WinterNG after =? 0)%float = true /\
    (forall c, c <> WinterNG -> Float64.get c after = Float64.get c scores).
Proof.
  intros scores r h aYear aPercentSources aEnergy h'.
  assert (H1 : h !! r = Some scores) by reflexivity.
  assert (H2 : (2 <= length aYear)%nat) by (vm_compute; lia).
  destruct (reliability_writes_coefficient_in_place aYear aPercentSources aEnergy
              Float64.Defaults.perc_effective Float64.Defaults.dirE r h scores H1 H2)
    as (after & Ha & Hw & Hz & Hsame & Hother & _).
  split; [exact H1 | split; [exact H2|]].
  split; [reflexivity|].
  split; [fold h'; rewrite Hother by discriminate; reflexivity|].
  exists after. split; [exact Ha|]. split; [|exact Hsame].
  rewrite Hw. reflexivity.
Defined.

(** C8 as stated fails, in two ways.  On a one-sample grid a caller's
    array with 7 at index 5 still has 7 there after the call.  On a
    two-sample grid with [perc_effective] infinite the value written is
    [(1 - inf/100) * 0.0], a NaN: index 5 of the module-level array is
    NaN after the call, and [NaN == 0] is false. *)
Lemma reliability_coefficient_is_not_always_zero :
  (let scores := Float64.Vec6 1 2 3 4 5 7 in
   let r : ref := 1%nat in
   let h : Float64.heap := <[r := scores]> Float64.module_heap in
   let call := Float64.get_aReliability [2021%float]
                 [Float64.Defaults.initial_percentages]
                 (Float64.get_aEnergy [2021%float] Float64.Defaults.dirE)
                 Float64.Defaults.perc_effective Float64.Defaults.dirE r h in
   h !! r = Some scores /\
   snd call !! r = Some scores /\
   (Float64.get WinterNG scores =? 0)%float = false) /\
  (let aYear := [2021; 2030]%float in
   let rows := [Float64.Defaults.initial_percentages;
                Float64.Defaults.initial_percentages] in
   let call := Float64.get_aReliability aYear rows
                 (Float64.get_aEnergy aYear Float64.Defaults.dirE)
                 infinity Float64.Defaults.dirE aRelScores_ref Float64.module_heap in
   Float64.module_heap !! aRelScores_ref = Some Float64.Defaults.aRelScores /\
   snd call !! aRelScores_ref
   = Some (Float64.set WinterNG nan Float64.Defaults.aRelScores) /\
   (nan =? 0)%float = false).
Proof.
  split.
  - intros scores r h call. repeat split; reflexivity.
  - intros aYear rows call.
    split; [reflexivity|].
    split; [vm_compute; reflexivity | reflexivity].
Qed.

(** C10, as the program has it.  For every two values of
    [perc_effective] whose derived coefficient
    [(1 - perc_effective/100) * 0.0] equals 0, which it does whenever
    [1 - perc_effective/100] is finite ([f64_times_zero_iff]), and all
    other inputs being the same, [get_aReliability] returns the same
    outcome: the same exception, or series that hold entry by entry the
    same value (the same float, or two zeros). *)
Theorem reliability_independent_of_perc_effective
    (aYear : list float) (aPercentSources : list Float64.vec6)
    (aEnergy : list float) (dirE : float) (aRelScores : ref) (h : Float64.heap)
    (perc_effective perc_effective' : float) :
  ((1 - perc_effective / 100) * 0 =? 0)%float = true ->
  ((1 - perc_effective' / 100) * 0 =? 0)%float = true ->
  Float64.outcome_same
    (fst (Float64.get_aReliability aYear aPercentSources aEnergy
            perc_effective dirE aRelScores h))
    (fst (Float64.get_aReliability aYear aPercentSources aEnergy
            perc_effective' dirE aRelScores h)).
Proof.
  intros Hz Hz'.
  destruct (le_lt_dec 2 (length aYear)) as [Hlen|Hlen].
  - destruct (h !! aRelScores) as [arr|] eqn:Hr.
    + rewrite !(f64_get_aReliability_long _ _ _ _ _ _ _ _ Hr Hlen). cbn [fst].
      apply f64_reliability_loop_same; [|apply f64_same_list_refl].
      intros ui row. now apply f64_dot_zero_coefficient.
    + rewrite !f64_get_aReliability_dangling by exact Hr. reflexivity.
  - rewrite !f64_get_aReliability_short by exact Hlen. reflexivity.
Qed.

(** The values 83.5 and 150 of [perc_effective]: the coefficient written
    is [0.0] for the first and [-0.0] for the second. *)
Lemma reliability_independent_of_perc_effective_witness :
  let aYear := [2021; 2030]%float in
  let rows := [Float64.Vec6 19.3 53.6 0.9 17.5 8.7 0;
               Float64.Vec6 2.29 49.1656 1.7784 29.11 7.656 10] in
  let aEnergy := Float64.get_aEnergy aYear Float64.Defaults.dirE in
  let call := fun perc_effective =>
    fst (Float64.get_aReliability aYear rows aEnergy perc_effective
           Float64.Defaults.dirE aRelScores_ref Float64.module_heap) in
  ((1 - 83.5 / 100) * 0 =? 0)%float = true /\
  ((1 - 150 / 100) * 0 =? 0)%float = true /\
  Float64.outcome_same (call 83.5%float) (call 150%float).
Proof.
  intros aYear rows aEnergy call.
  assert (H1 : ((1 - 83.5 / 100) * 0 =? 0)%float = true) by reflexivity.
  assert (H2 : ((1 - 150 / 100) * 0 =? 0)%float = true) by reflexivity.
  split; [exact H1 | split; [exact H2|]].
  apply (reliability_independent_of_perc_effective aYear rows aEnergy
           Float64.Defaults.dirE aRelScores_ref Float64.module_heap
           83.5%float 150%float H1 H2).
Defined.

(** C10 as stated fails.  On the grid [2021, 2030] with the module's
    arrays, the default [perc_effective] 83.5 gives a series of two
    numbers; an infinite [perc_effective] gives the coefficient
    [(1 - inf/100) * 0.0], a NaN, and the series [[nan, nan]]; so does a
    NaN [perc_effective]. *)
Lemma reliability_depends_on_infinite_perc_effective :
  let aYear := [2021; 2030]%float in
  let rows := [Float64.Defaults.initial_percentages;
               Float64.Defaults.initial_percentages] in
  let call := fun perc_effective =>
    fst (Float64.get_aReliability aYear rows
           (Float64.get_aEnergy aYear Float64.Defaults.dirE)
           perc_effective Float64.Defaults.dirE aRelScores_ref Float64.module_heap) in
  (exists a b, call Float64.Defaults.perc_effective = Return [a; b] /\
               (a =? a)%float = true /\ (b =? b)%float = true) /\
  call infinity = Return [nan; nan] /\
  call nan = Return [nan; nan] /\
  (nan =? nan)%float = false.
Proof.
  intros aYear rows call. split.
  - eexists _, _. split; [vm_compute; reflexivity|].
    split; vm_compute; reflexivity.
  - repeat split; vm_compute; reflexivity.
Qed.

(* ================================================================== *)
(** * Total emissions *)
(* ================================================================== *)

(** C7.  For every non-empty time grid and every series,
    [get_totalEmissions] returns
    [sum(series) * (aYear[last] - aYear[first]) / len(aYear)]: the divisor
    is the number of samples. *)
Theorem total_emissions_formula (aYear aEmissions : list Q) :
  aYear <> [] ->
  exists y_first y_last total,
    aYear !! 0%nat = Some y_first /\
    aYear !! (length aYear - 1)%nat = Some y_last /\
    get_totalEmissions aYear aEmissions = Return total /\
    total == Qsum aEmissions * (y_last - y_first) / len aYear.
Proof.
  intros Hne.
  destruct (lookup_lt_is_Some_2 aYear 0) as [y_first Hf].
  { destruct aYear; [congruence | cbn [length]; lia]. }
  destruct (lookup_lt_is_Some_2 aYear (length aYear - 1)) as [y_last Hl].
  { destruct aYear; [congruence | cbn [length]; lia]. }
  exists y_first, y_last, (Qsum aEmissions * ((y_last - y_first) / len aYear)).
  split; [exact Hf | split; [exact Hl | split]].
  - unfold get_totalEmissions.
    rewrite last_lookup, head_lookup.
    replace (pred (length aYear)) with (length aYear - 1)%nat by lia.
    now rewrite Hl, Hf.
  - unfold Qdiv. ring.
Qed.

(** On the grid [2021, 2022, 2023] and the series [1, 2, 4] the total is
    [7 * 2 / 3]; dividing by [len - 1] would give 7 and the trapezoidal
    rule 4.5. *)
Lemma total_emissions_formula_witness :
  let aYear := [2021; 2022; 2023] in
  let aEmissions := [1; 2; 4] in
  aYear <> [] /\
  exists total,
    get_totalEmissions aYear aEmissions = Return total /\
    total == 14 # 3 /\
    ~ total == Qsum aEmissions * (2023 - 2021) / (len aYear - 1) /\
    ~ total == (1 + 2) / 2 * (2022 - 2021) + (2 + 4) / 2 * (2023 - 2022).
Proof.
  intros aYear aEmissions.
  assert (Hne : aYear <> []) by discriminate.
  split; [exact Hne|].
  destruct (total_emissions_formula aYear aEmissions Hne)
    as (y_first & y_last & total & Hf & Hl & Hcall & Htotal).
  exists total.
  injection Hf as <-. injection Hl as <-.
  split; [exact Hcall|].
  assert (H : total == 14 # 3) by (rewrite Htotal; by_evaluation).
  split; [exact H|].
  split; rewrite H; by_evaluation.
Defined.

(* ================================================================== *)
(** * Further properties of the module *)
(* ================================================================== *)

(** ** The time grid *)












(** ** The energy series *)



(** ** More on the source-mix trajectory *)

Lemma rows_from_take init d1 d2 ys zs : forall prev,
  take (length ys) (rows_from init d1 d2 prev (ys ++ zs))
  = rows_from init d1 d2 prev ys.
Proof.
  induction ys as [|y ys IH]; intros prev.
  - apply take_0.
  - rewrite <- app_comm_cons, !rows_from_cons, length_cons, firstn_cons.
    now rewrite IH.
Qed.

(** X4.  Later samples never change earlier rows: the trajectory of a
    grid extended by further samples starts with the trajectory of the
    grid. *)
Theorem trajectory_of_extended_grid
    (initial_percentages derivative_sources sec_derivative_sources : vec6)
    (aYear more : list Q) :
  take (length aYear)
    (get_aPercentSources initial_percentages derivative_sources
       sec_derivative_sources (aYear ++ more))
  = get_aPercentSources initial_percentages derivative_sources
      sec_derivative_sources aYear.
Proof. rewrite !get_aPercentSources_rows. apply rows_from_take. Qed.

(** Two pairs of trend vectors that agree on the five clamped channels
    give the same rows. *)
Lemma rows_from_clamped_trends init d1 d2 d1' d2' :
  (forall c, clamped c -> get c d1 = get c d1') ->
  (forall c, clamped c -> get c d2 = get c d2') ->
  forall ts prev, rows_from init d1 d2 prev ts = rows_from init d1' d2' prev ts.
Proof.
  intros H1 H2.
  assert (Hclamp : forall c t, clamped c ->
            get c (clamp (candidate init d1 d2 t))
            = get c (clamp (candidate init d1' d2' t))).
  { intros c t Hc. rewrite !clamp_get, !candidate_get by assumption.
    now rewrite (H1 c Hc), (H2 c Hc). }
  assert (Hslack : forall t,
            slack (clamp (candidate init d1 d2 t))
            = slack (clamp (candidate init d1' d2' t))).
  { intros t. unfold slack. now rewrite !Hclamp by discriminate. }
  assert (Hnext : forall prev t,
            next_row init d1 d2 prev t = next_row init d1' d2' prev t).
  { intros prev t. unfold next_row, feasible, accepted. rewrite Hslack.
    destruct (Qgeb _ 0); [|reflexivity].
    apply vec6_ext. intros c.
    destruct (decide (c = NaturalGas)) as [->|Hc].
    - now rewrite !get_set_eq.
    - rewrite !get_set_ne by congruence. now apply Hclamp. }
  induction ts as [|t ts IH]; intros prev; [reflexivity|].
  rewrite !rows_from_cons, Hnext. f_equal. apply IH.
Qed.

(** X5.  The NaturalGas entry of the second-derivative vector is ignored
    as well: whatever values the two trend vectors hold at index 1, the
    trajectory is the one computed with the vectors as given. *)
Theorem natural_gas_trend_entries_are_ignored
    (initial_percentages derivative_sources sec_derivative_sources : vec6)
    (aYear : list Q) (x y : Q) :
  get_aPercentSources initial_percentages
    (set NaturalGas x derivative_sources)
    (set NaturalGas y sec_derivative_sources) aYear
  = get_aPercentSources initial_percentages derivative_sources
      sec_derivative_sources aYear.
Proof.
  rewrite !get_aPercentSources_rows.
  apply rows_from_clamped_trends;
    intros c Hc; apply get_set_ne; unfold clamped in Hc; congruence.
Qed.

(** X7.  When the slack is negative at every sample, every row is
    [initial_percentages] itself, copied without clamping or
    renormalising, even if it is not a valid mix. *)
Theorem trajectory_frozen_from_the_start
    (initial_percentages derivative_sources sec_derivative_sources : vec6)
    (aYear : list Q) :
  (forall k t, aYear !! k = Some t ->
     slack (clamp (candidate initial_percentages derivative_sources
                     sec_derivative_sources t)) < 0) ->
  forall k, (k < length aYear)%nat ->
    get_aPercentSources initial_percentages derivative_sources
      sec_derivative_sources aYear !! k = Some initial_percentages.
Proof.
  intros Hneg k Hk.
  assert (F : forall j tj, aYear !! j = Some tj ->
            feasible initial_percentages derivative_sources
              sec_derivative_sources tj = false).
  { intros j tj Hj. apply feasible_false. now apply (Hneg j). }
  change k with (0 + k)%nat.
  rewrite row_frozen_run by (try (cbn [Nat.add]; lia); intros j tj _ Hj; now apply (F j)).
  destruct (lookup_lt_is_Some_2 aYear 0 ltac:(lia)) as [t0 H0].
  now rewrite (row_frozen _ _ _ _ _ _ H0 (F 0%nat t0 H0)).
Qed.

Lemma trajectory_frozen_from_the_start_witness :
  let init := Vec6 60 0 60 0 0 0 in
  let aYear := [2021; 2022] in
  (forall k t, aYear !! k = Some t ->
     slack (clamp (candidate init vzero vzero t)) < 0) /\
  (1 < length aYear)%nat /\
  get_aPercentSources init vzero vzero aYear !! 1%nat = Some init.
Proof.
  intros init aYear.
  assert (H1 : forall k t, aYear !! k = Some t ->
            slack (clamp (candidate init vzero vzero t)) < 0).
  { intros k t Hk.
    destruct k as [|[|k]]; try discriminate Hk;
      injection Hk as <-; by_evaluation. }
  assert (H2 : (1 < length aYear)%nat) by (vm_compute; lia).
  split; [exact H1 | split; [exact H2|]].
  apply (trajectory_frozen_from_the_start init vzero vzero aYear H1 1%nat H2).
Defined.

(** ** More on the reliability series *)

Lemma set_set_winter (a b : Q) (v : vec6) :
  set WinterNG a (set WinterNG b v) = set WinterNG a v.
Proof. destruct v. reflexivity. Qed.

(** X8.  On a grid of at least two samples, when the energy series or
    the trajectory has fewer entries than the grid, [get_aReliability]
    raises [IndexError], and it does so after the write: the coefficient
    array already holds [(1 - perc_effective/100) * 0.0] at index 5. *)
Theorem reliability_raises_on_short_series
    (aYear : list float) (aPercentSources : list Float64.vec6)
    (aEnergy : list float) (perc_effective dirE : float)
    (aRelScores : ref) (h : Float64.heap) (before : Float64.vec6) :
  h !! aRelScores = Some before ->
  (2 <= length aYear)%nat ->
  (length aEnergy < length aYear \/ length aPercentSources < length aYear)%nat ->
  let call := Float64.get_aReliability aYear aPercentSources aEnergy
                perc_effective dirE aRelScores h in
  fst call = Raise IndexError /\
  snd call !! aRelScores
  = Some (Float64.set WinterNG ((1 - perc_effective / 100) * 0)%float before).
Proof.
  intros Hb Hlen Hshort call. unfold call.
  rewrite (f64_get_aReliability_long _ _ _ _ _ _ _ _ Hb Hlen). cbn [fst snd].
  split.
  - apply f64_reliability_loop_raises; [lia | lia |].
    rewrite length_map. cbn [Nat.add]. lia.
  - now rewrite lookup_alter_eq, Hb.
Qed.

Lemma reliability_raises_on_short_series_witness :
  let aYear := [2021; 2030]%float in
  let aPercentSources := [Float64.Defaults.initial_percentages] in
  let aEnergy := Float64.get_aEnergy aYear Float64.Defaults.dirE in
  let call := Float64.get_aReliability aYear aPercentSources aEnergy
                Float64.Defaults.perc_effective Float64.Defaults.dirE
                aRelScores_ref Float64.module_heap in
  Float64.module_heap !! aRelScores_ref = Some Float64.Defaults.aRelScores /\
  (2 <= length aYear)%nat /\
  (length aEnergy < length aYear \/ length aPercentSources < length aYear)%nat /\
  fst call = Raise IndexError.
Proof.
  intros aYear aPercentSources aEnergy call.
  assert (H1 : Float64.module_heap !! aRelScores_ref
               = Some Float64.Defaults.aRelScores) by reflexivity.
  assert (H2 : (2 <= length aYear)%nat) by (vm_compute; lia).
  assert (H3 : (length aEnergy < length aYear
                \/ length aPercentSources < length aYear)%nat)
    by (right; vm_compute; lia).
  repeat (split; [assumption|]).
  apply (reliability_raises_on_short_series aYear aPercentSources aEnergy
           Float64.Defaults.perc_effective Float64.Defaults.dirE aRelScores_ref
           Float64.module_heap Float64.Defaults.aRelScores H1 H2 H3).
Defined.

(** X9.  A call is repeatable: run again with the same arguments on the
    store the first call left, [get_aReliability] gives the same outcome
    and leaves the same store. *)
Theorem reliability_call_is_repeatable
    (aYear : list Q) (aPercentSources : list vec6) (aEnergy : list Q)
    (perc_effective dirE : Q) (aRelScores : ref) (h : heap) (before : vec6) :
  h !! aRelScores = Some before ->
  let first := get_aReliability aYear aPercentSources aEnergy
                 perc_effective dirE aRelScores h in
  get_aReliability aYear aPercentSources aEnergy
    perc_effective dirE aRelScores (snd first) = first.
Proof.
  intros Hb first. unfold first.
  destruct (le_lt_dec 2 (length aYear)) as [Hlen|Hlen].
  - rewrite (get_aReliability_long _ _ _ _ _ _ _ _ Hb Hlen). cbn [snd].
    assert (Ha : alter (set WinterNG ((1 - perc_effective / 100) * 0))
                   aRelScores h !! aRelScores
                 = Some (set WinterNG ((1 - perc_effective / 100) * 0) before))
      by now rewrite lookup_alter_eq, Hb.
    rewrite (get_aReliability_long _ _ _ _ _ _ _ _ Ha Hlen).
    rewrite set_set_winter.
    f_equal. apply alter_id. intros x Hx.
    rewrite Ha in Hx. injection Hx as <-. apply set_set_winter.
  - rewrite (get_aReliability_short aYear aPercentSources aEnergy
               perc_effective dirE aRelScores h Hlen).
    cbn [snd]. apply get_aReliability_short. exact Hlen.
Qed.

Lemma reliability_call_is_repeatable_witness :
  let aYear := [2021; 2030] in
  let aPercentSources := [Defaults.initial_percentages; Defaults.initial_percentages] in
  let aEnergy := get_aEnergy aYear Defaults.dirE in
  module_heap !! aRelScores_ref = Some Defaults.aRelScores /\
  get_aReliability_default aYear aPercentSources aEnergy
    (snd (get_aReliability_default aYear aPercentSources aEnergy module_heap))
  = get_aReliability_default aYear aPercentSources aEnergy module_heap.
Proof.
  intros aYear aPercentSources aEnergy.
  assert (H1 : module_heap !! aRelScores_ref = Some Defaults.aRelScores)
    by reflexivity.
  split; [exact H1|].
  apply (reliability_call_is_repeatable aYear aPercentSources aEnergy
           Defaults.perc_effective Defaults.dirE aRelScores_ref module_heap
           Defaults.aRelScores H1).
Defined.

(** A zero coefficient in front of a finite share: whatever the share,
    the scaled sum is the same number. *)
Lemma SF_zero_share (U ACC R R' : spec_float) (s : bool) :
  match R with S754_zero _ | S754_finite _ _ _ => True | _ => False end ->
  match R' with S754_zero _ | S754_finite _ _ _ => True | _ => False end ->
  let v := SF64mul U (SF64add ACC (SF64mul (S754_zero s) R)) in
  let v' := SF64mul U (SF64add ACC (SF64mul (S754_zero s) R')) in
  v = v' \/ (exists a b, v = S754_zero a /\ v' = S754_zero b).
Proof.
  intros HR HR' v v'. subst v v'. unfold SF64mul, SF64add.
  destruct R as [sr|sr| |sr mr er]; try contradiction;
    destruct R' as [sr'|sr'| |sr' mr' er']; try contradiction;
    cbn [SFmul];
    destruct ACC as [sa|sa| |sa ma ea]; cbn [SFadd]; try (left; reflexivity);
    destruct U as [su|su| |su mu eu];
    destruct s, sr, sr', sa; cbn; try (left; reflexivity);
    right; eexists _, _; split; reflexivity.
Qed.

Lemma f64_finite_spec (x : float) :
  Float64.finite x = true ->
  match Prim2SF x with S754_zero _ | S754_finite _ _ _ => True | _ => False end.
Proof. unfold Float64.finite. destruct (Prim2SF x); intros H; try discriminate; exact I. Qed.

Lemma f64_dot_zero_share (w u : float) (arr row row' : Float64.vec6) :
  (w =? 0)%float = true ->
  (forall c, c <> WinterNG -> Float64.get c row = Float64.get c row') ->
  Float64.finite (Float64.get WinterNG row) = true ->
  Float64.finite (Float64.get WinterNG row') = true ->
  Float64.same (u * Float64.dot (Float64.set WinterNG w arr) row)
               (u * Float64.dot (Float64.set WinterNG w arr) row').
Proof.
  intros Hw Hsame Hf Hf'.
  destruct (f64_is_zero _ Hw) as [s E].
  apply f64_finite_spec in Hf, Hf'.
  pose proof (Hsame Coal ltac:(discriminate)) as H0.
  pose proof (Hsame NaturalGas ltac:(discriminate)) as H1.
  pose proof (Hsame Solar ltac:(discriminate)) as H2.
  pose proof (Hsame Wind ltac:(discriminate)) as H3.
  pose proof (Hsame Nuclear ltac:(discriminate)) as H4.
  apply f64_same_spec.
  destruct arr as [a0 a1 a2 a3 a4 a5], row as [r0 r1 r2 r3 r4 r5],
           row' as [r0' r1' r2' r3' r4' r5'].
  cbn [Float64.get Float64.x0 Float64.x1 Float64.x2
       Float64.x3 Float64.x4 Float64.x5] in *. subst.
  unfold Float64.dot. cbn [Float64.set Float64.x0 Float64.x1 Float64.x2
                             Float64.x3 Float64.x4 Float64.x5].
  set (acc := (a0 * r0' + a1 * r1' + a2 * r2' + a3 * r3' + a4 * r4')%float).
  rewrite !(mul_spec u), !(add_spec acc), !mul_spec, E.
  now apply SF_zero_share.
Qed.

(** Trajectories whose rows give the same numbers give the same series. *)
Lemma f64_reliability_loop_same_rows aPS aPS' u scores ts :
  length aPS = length aPS' ->
  (forall i ui row row', aPS !! i = Some row -> aPS' !! i = Some row' ->
     Float64.same (ui * Float64.dot scores row) (ui * Float64.dot scores row')) ->
  forall i (arr arr' : list float),
    Forall2 Float64.same arr arr' ->
    Float64.outcome_same (Float64.reliability_loop aPS u scores i ts arr)
                         (Float64.reliability_loop aPS' u scores i ts arr').
Proof.
  intros Hlen Hdot. induction ts as [|t ts IH]; intros i arr arr' Harr.
  - exact Harr.
  - cbn [Float64.reliability_loop].
    destruct (u !! i) as [ui|]; [|reflexivity].
    destruct (aPS !! i) as [row|] eqn:E; destruct (aPS' !! i) as [row'|] eqn:E'.
    + apply IH. apply Forall2_insert; [exact Harr|].
      now apply (Hdot i).
    + apply lookup_lt_Some in E. apply lookup_ge_None in E'. lia.
    + apply lookup_ge_None in E. apply lookup_lt_Some in E'. lia.
    + reflexivity.
Qed.

(** X10.  The WinterNaturalGas share does not count in the reliability
    when the derived coefficient [(1 - perc_effective/100) * 0.0] equals
    0: two trajectories of one length whose rows agree on channels 0 to
    4 and hold finite values in channel 5 give the same outcome, the
    same exception or series of the same values. *)
Theorem reliability_ignores_winter_share
    (aYear : list float) (aPercentSources aPercentSources' : list Float64.vec6)
    (aEnergy : list float) (perc_effective dirE : float)
    (aRelScores : ref) (h : Float64.heap) :
  ((1 - perc_effective / 100) * 0 =? 0)%float = true ->
  length aPercentSources = length aPercentSources' ->
  (forall i row row',
     aPercentSources !! i = Some row -> aPercentSources' !! i = Some row' ->
     (forall c, c <> WinterNG -> Float64.get c row = Float64.get c row') /\
     Float64.finite (Float64.get WinterNG row) = true /\
     Float64.finite (Float64.get WinterNG row') = true) ->
  Float64.outcome_same
    (fst (Float64.get_aReliability aYear aPercentSources aEnergy
            perc_effective dirE aRelScores h))
    (fst (Float64.get_aReliability aYear aPercentSources' aEnergy
            perc_effective dirE aRelScores h)).
Proof.
  intros Hw Hlen Hrows.
  destruct (le_lt_dec 2 (length aYear)) as [H2|H2].
  - destruct (h !! aRelScores) as [arr|] eqn:Hr.
    + rewrite !(f64_get_aReliability_long _ _ _ _ _ _ _ _ Hr H2). cbn [fst].
      apply f64_reliability_loop_same_rows; [exact Hlen | | apply f64_same_list_refl].
      intros i ui row row' Hi Hi'.
      destruct (Hrows i row row' Hi Hi') as (Hsame & Hf & Hf').
      now apply f64_dot_zero_share.
    + rewrite !f64_get_aReliability_dangling by exact Hr. reflexivity.
  - rewrite !f64_get_aReliability_short by exact H2. reflexivity.
Qed.

Lemma reliability_ignores_winter_share_witness :
  let aYear := [2021; 2030]%float in
  let rows := [Float64.Vec6 20 50 1 19 10 0; Float64.Vec6 20 50 1 19 10 0] in
  let rows' := [Float64.Vec6 20 50 1 19 10 40; Float64.Vec6 20 50 1 19 10 7] in
  let aEnergy := Float64.get_aEnergy aYear Float64.Defaults.dirE in
  let call := fun trajectory =>
    fst (Float64.get_aReliability aYear trajectory aEnergy
           Float64.Defaults.perc_effective Float64.Defaults.dirE
           aRelScores_ref Float64.module_heap) in
  ((1 - Float64.Defaults.perc_effective / 100) * 0 =? 0)%float = true /\
  length rows = length rows' /\
  (forall i row row', rows !! i = Some row -> rows' !! i = Some row' ->
     (forall c, c <> WinterNG -> Float64.get c row = Float64.get c row') /\
     Float64.finite (Float64.get WinterNG row) = true /\
     Float64.finite (Float64.get WinterNG row') = true) /\
  Float64.outcome_same (call rows) (call rows').
Proof.
  intros aYear rows rows' aEnergy call.
  assert (H0 : ((1 - Float64.Defaults.perc_effective / 100) * 0 =? 0)%float = true)
    by reflexivity.
  assert (H1 : length rows = length rows') by reflexivity.
  assert (H2 : forall i row row', rows !! i = Some row -> rows' !! i = Some row' ->
            (forall c, c <> WinterNG -> Float64.get c row = Float64.get c row') /\
            Float64.finite (Float64.get WinterNG row) = true /\
            Float64.finite (Float64.get WinterNG row') = true).
  { intros i row row' Hi Hi'.
    destruct i as [|[|i]]; try discriminate Hi;
      injection Hi as <-; injection Hi' as <-;
      (split; [intros c Hc; destruct c; try congruence; reflexivity
              | split; reflexivity]). }
  split; [exact H0 | split; [exact H1 | split; [exact H2|]]].
  apply (reliability_ignores_winter_share aYear rows rows' aEnergy
           Float64.Defaults.perc_effective Float64.Defaults.dirE
           aRelScores_ref Float64.module_heap H0 H1 H2).
Defined.



(** X12.  A coefficient array that already has a zero at index 5, as
    the module-level default has, holds the same six values after any
    call whose derived coefficient [(1 - perc_effective/100) * 0.0]
    equals 0, whether the call returns or raises. *)
Theorem reliability_keeps_array_with_zero_winter
    (aYear : list float) (aPercentSources : list Float64.vec6)
    (aEnergy : list float) (perc_effective dirE : float)
    (aRelScores : ref) (h : Float64.heap) (before : Float64.vec6) :
  h !! aRelScores = Some before ->
  (Float64.get WinterNG before =? 0)%float = true ->
  ((1 - perc_effective / 100) * 0 =? 0)%float = true ->
  exists after,
    snd (Float64.get_aReliability aYear aPercentSources aEnergy
           perc_effective dirE aRelScores h) !! aRelScores = Some after /\
    forall c, Float64.same (Float64.get c after) (Float64.get c before).
Proof.
  intros Hb Hz Hw.
  destruct (le_lt_dec 2 (length aYear)) as [Hlen|Hlen].
  - rewrite (f64_get_aReliability_long _ _ _ _ _ _ _ _ Hb Hlen). cbn [snd].
    exists (Float64.set WinterNG ((1 - perc_effective / 100) * 0)%float before).
    rewrite lookup_alter_eq, Hb. split; [reflexivity|].
    intros c. destruct (decide (c = WinterNG)) as [->|Hc].
    + rewrite f64_get_set_eq. right. now split.
    + rewrite f64_get_set_ne by congruence. apply f64_same_refl.
  - rewrite (f64_get_aReliability_short _ _ _ _ _ _ _ Hlen). cbn [snd].
    exists before. split; [exact Hb|]. intros c. apply f64_same_refl.
Qed.

Lemma reliability_keeps_array_with_zero_winter_witness :
  Float64.module_heap !! aRelScores_ref = Some Float64.Defaults.aRelScores /\
  (Float64.get WinterNG Float64.Defaults.aRelScores =? 0)%float = true /\
  ((1 - 150 / 100) * 0 =? 0)%float = true /\
  exists after,
    snd (Float64.get_aReliability [2021; 2030]%float
           [Float64.Defaults.initial_percentages;
            Float64.Defaults.initial_percentages]
           (Float64.get_aEnergy [2021; 2030]%float Float64.Defaults.dirE)
           150%float Float64.Defaults.dirE aRelScores_ref Float64.module_heap)
      !! aRelScores_ref = Some after /\
    forall c, Float64.same (Float64.get c after)
                           (Float64.get c Float64.Defaults.aRelScores).
Proof.
  assert (H1 : Float64.module_heap !! aRelScores_ref
               = Some Float64.Defaults.aRelScores) by reflexivity.
  assert (H2 : (Float64.get WinterNG Float64.Defaults.aRelScores =? 0)%float = true)
    by reflexivity.
  assert (H3 : ((1 - 150 / 100) * 0 =? 0)%float = true) by reflexivity.
  split; [exact H1 | split; [exact H2 | split; [exact H3|]]].
  apply (reliability_keeps_array_with_zero_winter _ _ _
           150%float Float64.Defaults.dirE aRelScores_ref Float64.module_heap
           Float64.Defaults.aRelScores H1 H2 H3).
Defined.

(** ** The cost and emission series *)

Section FillFacts.
Variable value : nat -> outcome Q.

(** The loop returns when every value it asks for is computed, and
    then holds those values. *)
Lemma fill_loop_returns ts : forall i (a : list Q),
  length a = (i + length ts)%nat ->
  (forall k, (i <= k < i + length ts)%nat -> exists v, value k = Return v) ->
  exists res,
    fill_loop value i ts a = Return res /\
    length res = length a /\
    (forall k, (k < i)%nat -> res !! k = a !! k) /\
    (forall k v, (i <= k < i + length ts)%nat ->
       value k = Return v -> res !! k = Some v).
Proof.
  induction ts as [|t ts IH]; intros i a Ha Hval.
  - exists a. cbn [fill_loop length] in *.
    repeat split; intros; lia.
  - cbn [fill_loop]. rewrite length_cons in *.
    destruct (Hval i ltac:(lia)) as [v Hv]. rewrite Hv.
    destruct (IH (S i) (<[i := v]> a)) as (res & Hres & Hlen & Hlow & Hhigh).
    { rewrite length_insert. lia. }
    { intros k Hk. apply Hval. lia. }
    exists res. rewrite length_insert in Hlen.
    repeat split; [exact Hres | exact Hlen | |].
    + intros k Hk. rewrite Hlow by lia. apply list_lookup_insert_ne. lia.
    + intros k w Hk Hw.
      destruct (decide (k = i)) as [->|Hne].
      * rewrite Hlow by lia. rewrite list_lookup_insert_eq by lia. congruence.
      * apply Hhigh; [lia | exact Hw].
Qed.

(** The loop raises when one of the values it asks for raises. *)
Lemma fill_loop_raises ts : forall i (a : list Q) k e,
  (i <= k < i + length ts)%nat -> value k = Raise e ->
  fill_loop value i ts a = Raise IndexError.
Proof.
  induction ts as [|t ts IH]; intros i a k e Hk He.
  - cbn [length] in Hk. lia.
  - cbn [fill_loop]. rewrite length_cons in Hk.
    destruct (value i) as [v|e'] eqn:Ev.
    + apply (IH (S i) _ k e); [|exact He].
      destruct (decide (k = i)) as [->|Hne]; [congruence | lia].
    + now destruct e'.
Qed.
End FillFacts.

(** Only the number of samples counts, not the years. *)
Lemma fill_loop_years value ts ts' :
  length ts = length ts' ->
  forall i a, fill_loop value i ts a = fill_loop value i ts' a.
Proof.
  revert ts'. induction ts as [|t ts IH]; intros [|t' ts'] Hlen i a;
    try discriminate; [reflexivity|].
  cbn [fill_loop]. destruct (value i); [|reflexivity].
  apply IH. now injection Hlen.
Qed.

(** A series computed row by row. *)
Lemma row_series (f : vec6 -> Q) (aYear : list Q) (aPS : list vec6) :
  let run := fill_loop
               (fun i => match aPS !! i with
                         | Some row => Return (f row)
                         | None => Raise IndexError
                         end)
               0 aYear (replicate (length aYear) 0) in
  ((length aYear <= length aPS)%nat ->
   exists series,
     run = Return series /\ length series = length aYear /\
     forall i row, (i < length aYear)%nat -> aPS !! i = Some row ->
                   series !! i = Some (f row)) /\
  ((length aPS < length aYear)%nat -> run = Raise IndexError).
Proof.
  intros run. split.
  - intros Hlen.
    destruct (fill_loop_returns
                (fun i => match aPS !! i with
                          | Some row => Return (f row)
                          | None => Raise IndexError
                          end)
                aYear 0 (replicate (length aYear) 0))
      as (res & Hres & Hl & _ & Hval).
    { now rewrite length_replicate. }
    { intros k Hk.
      destruct (lookup_lt_is_Some_2 aPS k ltac:(lia)) as [row Hrow].
      rewrite Hrow. now exists (f row). }
    exists res. split; [exact Hres|].
    split; [now rewrite Hl, length_replicate|].
    intros i row Hi Hrow. apply Hval; [lia|]. now rewrite Hrow.
  - intros Hshort.
    apply (fill_loop_raises _ aYear 0 _ (length aPS) IndexError); [lia|].
    now rewrite (lookup_ge_None_2 aPS (length aPS)) by lia.
Qed.

(** X13.  [get_aConstructionCost] returns one cost per sample,
    [rateE_kW * dot(row / 100, const_costs)], when the trajectory has at
    least as many rows as the grid has samples, and raises [IndexError]
    when it has fewer. *)
Theorem construction_cost_returns_or_raises
    (aYear : list Q) (aPercentSources : list vec6)
    (const_costs : vec6) (rateE_kW : Q) :
  ((length aYear <= length aPercentSources)%nat ->
   exists costs,
     get_aConstructionCost aYear aPercentSources const_costs rateE_kW
     = Return costs /\
     length costs = length aYear /\
     forall i row, (i < length aYear)%nat -> aPercentSources !! i = Some row ->
       costs !! i = Some (rateE_kW * dot (vdiv row 100) const_costs)) /\
  ((length aPercentSources < length aYear)%nat ->
   get_aConstructionCost aYear aPercentSources const_costs rateE_kW
   = Raise IndexError).
Proof.
  apply (row_series (fun row => rateE_kW * dot (vdiv row 100) const_costs)).
Qed.

(** X15.  [get_aConsumerCost] returns one cost per sample when the
    trajectory covers the grid, the cost of sample [i] being
    [0.56*dot(gen_costs, P) + 0.44*dot(non_gen_costs, P)] with [P] the
    row [i], and raises [IndexError] when the trajectory is shorter than
    the grid. *)
Theorem consumer_cost_returns_or_raises
    (aYear : list Q) (aPercentSources : list vec6)
    (gen_costs non_gen_costs : vec6) :
  ((length aYear <= length aPercentSources)%nat ->
   exists costs,
     get_aConsumerCost aYear aPercentSources gen_costs non_gen_costs
     = Return costs /\
     length costs = length aYear /\
     forall i row, (i < length aYear)%nat -> aPercentSources !! i = Some row ->
       costs !! i
       = Some (0.56 * dot gen_costs row + 0.44 * dot non_gen_costs row)) /\
  ((length aPercentSources < length aYear)%nat ->
   get_aConsumerCost aYear aPercentSources gen_costs non_gen_costs
   = Raise IndexError).
Proof.
  apply (row_series
           (fun P => 0.56 * dot gen_costs P + 0.44 * dot non_gen_costs P)).
Qed.


(** The emission series, entry by entry. *)
Lemma emissions_series (aYear : list Q) (aPS : list vec6) (aEnergy : list Q)
    (source_emissions : vec6) :
  ((length aYear <= length aPS)%nat -> (length aYear <= length aEnergy)%nat ->
   exists emissions,
     get_aEmissions aYear aPS aEnergy source_emissions = Return emissions /\
     length emissions = length aYear /\
     forall i row e, (i < length aYear)%nat ->
       aPS !! i = Some row -> aEnergy !! i = Some e ->
       emissions !! i = Some (e * dot source_emissions row)) /\
  ((length aPS < length aYear \/ length aEnergy < length aYear)%nat ->
   get_aEmissions aYear aPS aEnergy source_emissions = Raise IndexError).
Proof.
  unfold get_aEmissions. split.
  - intros Hp He.
    match goal with
    | |- context [fill_loop ?v _ _ _] =>
        destruct (fill_loop_returns v aYear 0 (replicate (length aYear) 0))
          as (res & Hres & Hl & _ & Hval)
    end.
    { now rewrite length_replicate. }
    { intros k Hk.
      destruct (lookup_lt_is_Some_2 aPS k ltac:(lia)) as [row ->].
      destruct (lookup_lt_is_Some_2 aEnergy k ltac:(lia)) as [e ->].
      now eexists. }
    exists res. split; [exact Hres|].
    split; [now rewrite Hl, length_replicate|].
    intros i row e Hi Hrow Hen. apply Hval; [lia|]. now rewrite Hrow, Hen.
  - intros Hshort.
    set (m := Nat.min (length aPS) (length aEnergy)).
    match goal with
    | |- context [fill_loop ?v _ _ _] =>
        apply (fill_loop_raises v aYear 0 _ m IndexError)
    end; [unfold m; lia|].
    destruct (le_lt_dec (length aPS) (length aEnergy)) as [Hle|Hlt].
    + replace m with (length aPS) by (unfold m; lia).
      now rewrite (lookup_ge_None_2 aPS (length aPS)) by lia.
    + replace m with (length aEnergy) by (unfold m; lia).
      destruct (aPS !! length aEnergy); [|reflexivity].
      now rewrite (lookup_ge_None_2 aEnergy (length aEnergy)) by lia.
Qed.

(** X16.  [get_aEmissions] returns one entry per sample,
    [aEnergy[i] * dot(source_emissions, row i)], when both the
    trajectory and the energy series cover the grid, and raises
    [IndexError] when either is shorter than the grid. *)
Theorem emissions_return_or_raise
    (aYear : list Q) (aPercentSources : list vec6) (aEnergy : list Q)
    (source_emissions : vec6) :
  ((length aYear <= length aPercentSources)%nat ->
   (length aYear <= length aEnergy)%nat ->
   exists emissions,
     get_aEmissions aYear aPercentSources aEnergy source_emissions
     = Return emissions /\
     length emissions = length aYear /\
     forall i row e, (i < length aYear)%nat ->
       aPercentSources !! i = Some row -> aEnergy !! i = Some e ->
       emissions !! i = Some (e * dot source_emissions row)) /\
  ((length aPercentSources < length aYear \/ length aEnergy < length aYear)%nat ->
   get_aEmissions aYear aPercentSources aEnergy source_emissions
   = Raise IndexError).
Proof. apply emissions_series. Qed.



(** X18.  The three series ignore the years themselves: grids of one
    length give the same construction costs, consumer costs and
    emissions. *)
Theorem series_depend_on_grid_length_only
    (aYear aYear' : list Q) (aPercentSources : list vec6) (aEnergy : list Q)
    (const_costs gen_costs non_gen_costs source_emissions : vec6) (rateE_kW : Q) :
  length aYear = length aYear' ->
  get_aConstructionCost aYear aPercentSources const_costs rateE_kW
  = get_aConstructionCost aYear' aPercentSources const_costs rateE_kW /\
  get_aConsumerCost aYear aPercentSources gen_costs non_gen_costs
  = get_aConsumerCost aYear' aPercentSources gen_costs non_gen_costs /\
  get_aEmissions aYear aPercentSources aEnergy source_emissions
  = get_aEmissions aYear' aPercentSources aEnergy source_emissions.
Proof.
  intros Hlen.
  unfold get_aConstructionCost, get_aConsumerCost, get_aEmissions.
  rewrite Hlen.
  repeat split; now apply fill_loop_years.
Qed.

Lemma series_depend_on_grid_length_only_witness :
  let rows := [Defaults.initial_percentages; Defaults.initial_percentages] in
  length [2021; 2030] = length [1999; 1066] /\
  get_aConstructionCost [2021; 2030] rows Coefficients.const_costs
    Coefficients.rateE_kW
  = get_aConstructionCost [1999; 1066] rows Coefficients.const_costs
      Coefficients.rateE_kW.
Proof.
  intros rows.
  assert (H : length [2021; 2030] = length [1999; 1066]) by reflexivity.
  split; [exact H|].
  apply (series_depend_on_grid_length_only [2021; 2030] [1999; 1066] rows []
           Coefficients.const_costs Coefficients.gen_costs
           Coefficients.non_gen_costs Coefficients.source_emissions
           Coefficients.rateE_kW H).
Defined.

(** ** More on the total *)





(** The total of a non-empty grid, from its two ends. *)
Lemma total_from_ends (aYear aEmissions : list Q) y_first y_last :
  head aYear = Some y_first -> last aYear = Some y_last ->
  get_totalEmissions aYear aEmissions
  = Return (Qsum aEmissions * ((y_last - y_first) / len aYear)).
Proof. intros Hf Hl. unfold get_totalEmissions. now rewrite Hl, Hf. Qed.

Lemma ends_of_nonempty (aYear : list Q) :
  aYear <> [] ->
  exists y_first y_last, head aYear = Some y_first /\ last aYear = Some y_last.
Proof.
  intros Hne.
  destruct (lookup_lt_is_Some_2 aYear 0) as [y_first Hf].
  { destruct aYear; [congruence | cbn [length]; lia]. }
  destruct (lookup_lt_is_Some_2 aYear (pred (length aYear))) as [y_last Hl].
  { destruct aYear; [congruence | cbn [length]; lia]. }
  exists y_first, y_last. now rewrite head_lookup, last_lookup.
Qed.


(** X21.  The total reads the grid only through its first sample, its
    last sample and its length: two grids that agree on these give the
    same total, and the series may be of any length. *)
Theorem total_reads_ends_and_length (aYear aYear' aEmissions : list Q) :
  length aYear = length aYear' ->
  head aYear = head aYear' ->
  last aYear = last aYear' ->
  get_totalEmissions aYear aEmissions = get_totalEmissions aYear' aEmissions.
Proof.
  intros Hlen Hh Hl. unfold get_totalEmissions, len.
  now rewrite Hh, Hl, Hlen.
Qed.

Lemma total_reads_ends_and_length_witness :
  length [2021; 2025; 2030] = length [2021; 1900; 2030] /\
  head [2021; 2025; 2030] = head [2021; 1900; 2030] /\
  last [2021; 2025; 2030] = last [2021; 1900; 2030] /\
  get_totalEmissions [2021; 2025; 2030] [5]
  = get_totalEmissions [2021; 1900; 2030] [5].
Proof.
  assert (H1 : length [2021; 2025; 2030] = length [2021; 1900; 2030])
    by reflexivity.
  assert (H2 : head [2021; 2025; 2030] = head [2021; 1900; 2030])
    by reflexivity.
  assert (H3 : last [2021; 2025; 2030] = last [2021; 1900; 2030])
    by reflexivity.
  repeat (split; [assumption|]).
  apply (total_reads_ends_and_length _ _ [5] H1 H2 H3).
Defined.





(** ** The run of the module *)

(** X24.  The series fit together: on any grid of at least two samples,
    with the trajectory of [get_aPercentSources] and the energy series
    of [get_aEnergy] computed on that grid, [get_aEmissions],
    [get_aReliability], [get_aConstructionCost], [get_aConsumerCost] and
    then [get_totalEmissions] all return, each series with one entry per
    sample; no index goes out of range. *)
Theorem module_run_returns
    (initial_percentages derivative_sources sec_derivative_sources : vec6)
    (aYear : list Q) (dirE perc_effective rateE_kW : Q)
    (source_emissions const_costs gen_costs non_gen_costs : vec6)
    (aRelScores : ref) (h : heap) (before : vec6) :
  h !! aRelScores = Some before ->
  (2 <= length aYear)%nat ->
  let PercSources :=
    get_aPercentSources initial_percentages derivative_sources
      sec_derivative_sources aYear in
  let Energy := get_aEnergy aYear dirE in
  exists Emissions Rel ConstCost ConsmCost total,
    get_aEmissions aYear PercSources Energy source_emissions = Return Emissions /\
    fst (get_aReliability aYear PercSources Energy perc_effective dirE
           aRelScores h) = Return Rel /\
    get_aConstructionCost aYear PercSources const_costs rateE_kW
    = Return ConstCost /\
    get_aConsumerCost aYear PercSources gen_costs non_gen_costs
    = Return ConsmCost /\
    get_totalEmissions aYear Emissions = Return total /\
    length Emissions = length aYear /\ length Rel = length aYear /\
    length ConstCost = length aYear /\ length ConsmCost = length aYear.
Proof.
  intros Hb Hlen PercSources Energy.
  assert (Hp : length PercSources = length aYear)
    by apply get_aPercentSources_length.
  assert (He : length Energy = length aYear) by apply length_map.
  destruct (emissions_series aYear PercSources Energy source_emissions)
    as [Hem _].
  destruct (Hem ltac:(lia) ltac:(lia)) as (em & Hem1 & Hem2 & _).
  destruct (reliability_loop_returns PercSources
              (map (fun e => e / Energy_2021 dirE) Energy)
              (set WinterNG ((1 - perc_effective / 100) * 0) before)
              aYear 0 (replicate (length aYear) 0))
    as (rel & Hrel1 & Hrel2 & _).
  { rewrite length_replicate. lia. }
  { rewrite length_map. lia. }
  { lia. }
  destruct (row_series (fun row => rateE_kW * dot (vdiv row 100) const_costs)
              aYear PercSources) as [Hcc _].
  fold (get_aConstructionCost aYear PercSources const_costs rateE_kW) in Hcc.
  destruct (Hcc ltac:(lia)) as (cc & Hcc1 & Hcc2 & _).
  destruct (row_series
              (fun P => 0.56 * dot gen_costs P + 0.44 * dot non_gen_costs P)
              aYear PercSources) as [Hco _].
  fold (get_aConsumerCost aYear PercSources gen_costs non_gen_costs) in Hco.
  destruct (Hco ltac:(lia)) as (co & Hco1 & Hco2 & _).
  destruct (ends_of_nonempty aYear) as (y0 & y1 & Hf & Hl).
  { intros ->. cbn [length] in Hlen. lia. }
  exists em, rel, cc, co, (Qsum em * ((y1 - y0) / len aYear)).
  rewrite (get_aReliability_long _ _ _ _ _ _ _ _ Hb Hlen). cbn [fst].
  rewrite length_replicate in Hrel2.
  repeat split; try assumption.
  apply (total_from_ends _ _ _ _ Hf Hl).
Qed.

Lemma module_run_returns_witness :
  let aYear := get_aYear 2021 2030 4 in
  module_heap !! aRelScores_ref = Some Defaults.aRelScores /\
  (2 <= length aYear)%nat /\
  exists Emissions Rel ConstCost ConsmCost total,
    get_aEmissions aYear
      (get_aPercentSources Defaults.initial_percentages
         Defaults.derivative_sources (Vec6 (-0.5) 0 1 (-0.001) (-1) 0.1) aYear)
      (get_aEnergy aYear Defaults.dirE) Coefficients.source_emissions
    = Return Emissions /\
    fst (get_aReliability_default aYear
           (get_aPercentSources Defaults.initial_percentages
              Defaults.derivative_sources (Vec6 (-0.5) 0 1 (-0.001) (-1) 0.1) aYear)
           (get_aEnergy aYear Defaults.dirE) module_heap) = Return Rel /\
    get_aConstructionCost aYear
      (get_aPercentSources Defaults.initial_percentages
         Defaults.derivative_sources (Vec6 (-0.5) 0 1 (-0.001) (-1) 0.1) aYear)
      Coefficients.const_costs Coefficients.rateE_kW = Return ConstCost /\
    get_aConsumerCost aYear
      (get_aPercentSources Defaults.initial_percentages
         Defaults.derivative_sources (Vec6 (-0.5) 0 1 (-0.001) (-1) 0.1) aYear)
      Coefficients.gen_costs Coefficients.non_gen_costs = Return ConsmCost /\
    get_totalEmissions aYear Emissions = Return total.
Proof.
  intros aYear.
  assert (H1 : module_heap !! aRelScores_ref = Some Defaults.aRelScores)
    by reflexivity.
  assert (H2 : (2 <= length aYear)%nat) by (vm_compute; lia).
  split; [exact H1 | split; [exact H2|]].
  destruct (module_run_returns Defaults.initial_percentages
              Defaults.derivative_sources (Vec6 (-0.5) 0 1 (-0.001) (-1) 0.1)
              aYear Defaults.dirE Defaults.perc_effective Coefficients.rateE_kW
              Coefficients.source_emissions Coefficients.const_costs
              Coefficients.gen_costs Coefficients.non_gen_costs
              aRelScores_ref module_heap Defaults.aRelScores H1 H2)
    as (em & rel & cc & co & total & A & B & C & D & E & _).
  exists em, rel, cc, co, total. repeat split; assumption.
Defined.
